(** * SneakersShopAPI: the HTTP handlers of [main.go], embedded and verified

    The service is a thin layer that turns four HTTP requests into SQL
    statements.  The embedding follows [main.go] function by function:

    - the Go packages the handlers call ([strconv], [encoding/json],
      [net/http], [database/sql]) are modelled by small executable
      definitions, one Rocq module per package;
    - a handler is a function from the response writer, the request and
      the database handle to the response writer and the database handle
      it leaves behind;
    - the SQL statements of the source are given their meaning by a
      reference store ([pg]) holding the two relations [favorite] and
      [sneakers];
    - the route table of [main], behind the CORS middleware, is the
      service as a whole ([handler]). *)

From Stdlib Require Import ZArith Ascii String DecimalString DecimalPos Permutation.
From stdpp Require Import base strings gmap list.

Set Warnings "-register-all".

Open Scope string_scope.
Open Scope list_scope.
Open Scope Z_scope.

(** An [error] value is modelled by the text its [Error()] method returns:
    the handlers never do anything else with one.  The texts of the
    errors the libraries raise are given in a shortened form; nothing
    below depends on their wording. *)
Definition error : Type := string.

(** Go's [int] on the 64-bit platforms the service runs on. *)
Definition int_min : Z := - 2 ^ 63.
Definition int_max : Z := 2 ^ 63 - 1.
Definition is_int (n : Z) : bool := (int_min <=? n) && (n <=? int_max).

(** A slice that is only ever declared ([var xs []T], the nil slice) and
    grown with [append]: [None] is nil, [Some l] an allocated slice. *)
Definition slice (T : Type) : Type := option (list T).

Definition append {T : Type} (s : slice T) (x : T) : slice T :=
  match s with
  | None => Some [x]
  | Some l => Some (l ++ [x])
  end.

Definition elems {T : Type} (s : slice T) : list T :=
  match s with
  | None => []
  | Some l => l
  end.

(** ASCII case folding, shared by the JSON field lookup and by ILIKE. *)
Definition to_lower (c : ascii) : ascii :=
  let n := nat_of_ascii c in
  if (Nat.leb 65 n && Nat.leb n 90)%bool then ascii_of_nat (n + 32) else c.

Fixpoint lower (s : string) : string :=
  match s with
  | EmptyString => EmptyString
  | String c s' => String (to_lower c) (lower s')
  end.

(** ** package strconv *)
Module strconv.

Inductive NumError : Type := ErrSyntax | ErrRange.

Definition digit (c : ascii) : option Z :=
  let n := Z.of_nat (nat_of_ascii c) in
  if (48 <=? n) && (n <=? 57) then Some (n - 48) else None.

(** The digit loop of [ParseUint] in base 10 with a 64-bit result:
    a byte that is no digit is a syntax error, and the loop stops with
    a range error as soon as the value leaves [uint64]. *)
Fixpoint ParseUint (s : string) (n : Z) : NumError + Z :=
  match s with
  | EmptyString => inr n
  | String c s' =>
      match digit c with
      | None => inl ErrSyntax
      | Some d =>
          let n1 := n * 10 + d in
          if 2 ^ 64 - 1 <? n1 then inl ErrRange else ParseUint s' n1
      end
  end.

(** [Atoi(s)] is [ParseInt(s, 10, 0)]: an optional sign, then at least
    one digit, and the value must fit [int].  (The fast path of [Atoi]
    for short strings computes the same result.) *)
Definition Atoi (s : string) : NumError + Z :=
  match s with
  | EmptyString => inl ErrSyntax
  | String c rest =>
      let neg := Ascii.eqb c "-" in
      let digits := if (Ascii.eqb c "+" || neg)%bool then rest else s in
      if String.eqb digits "" then inl ErrSyntax
      else
        match ParseUint digits 0 with
        | inl e => inl e
        | inr un =>
            if neg then (if 2 ^ 63 <? un then inl ErrRange else inr (- un))
            else (if 2 ^ 63 <=? un then inl ErrRange else inr un)
        end
  end.

End strconv.

(** ** package encoding/json *)
Module json.

(** A JSON document.  A number literal without fraction and exponent is
    [Num]; any other number literal is kept as its text ([Frac]). *)
Inductive Value : Type :=
| Null
| Bool (b : bool)
| Num (n : Z)
| Frac (lit : string)
| Str (s : string)
| Arr (l : list Value)
| Obj (members : list (string * Value)).

(** What the decoder's scanner makes of a request body: the first JSON
    value of the stream, or the syntax error (also [EOF] for an empty
    body) it stops with. *)
Inductive Input : Type :=
| Malformed (err : error)
| Document (v : Value).

Definition kind (v : Value) : string :=
  match v with
  | Null => "null"
  | Bool _ => "bool"
  | Num _ | Frac _ => "number"
  | Str _ => "string"
  | Arr _ => "array"
  | Obj _ => "object"
  end.

(** A key of the input selects the struct field tagged [name] when it
    equals the tag, or equals it up to letter case. *)
Definition matches (name key : string) : bool :=
  (String.eqb key name || String.eqb (lower key) (lower name))%bool.

(** Storing a JSON value into a struct field of type [int]: [null]
    leaves the field alone, an integer literal in range is stored, and
    everything else is an [UnmarshalTypeError]. *)
Definition intField (name : string) (v : Value) (old : Z) : error + Z :=
  match v with
  | Null => inr old
  | Num n =>
      if is_int n then inr n
      else inl ("json: cannot unmarshal number into Go struct field ." +:+ name +:+ " of type int")
  | _ =>
      inl ("json: cannot unmarshal " +:+ kind v +:+ " into Go struct field ." +:+ name +:+ " of type int")
  end.

(** The members of an object are stored in input order, a later
    duplicate overwriting an earlier one.  A type error does not stop
    decoding: the first one is remembered and returned at the end. *)
Fixpoint intMembers (name : string) (members : list (string * Value))
    (field : Z) (saved : option error) : option error * Z :=
  match members with
  | [] => (saved, field)
  | (key, v) :: rest =>
      if matches name key then
        match intField name v field with
        | inr n => intMembers name rest n saved
        | inl e => intMembers name rest field (Some (default e saved))
        end
      else intMembers name rest field saved
  end.

(** The array-encoding of a slice: a nil slice is [null]. *)
Definition Slice {T : Type} (enc : T -> Value) (s : slice T) : Value :=
  match s with
  | None => Null
  | Some l => Arr (map enc l)
  end.

(** A [*int] field: the nil pointer is [null]. *)
Definition IntPtr (p : option Z) : Value :=
  match p with
  | None => Null
  | Some n => Num n
  end.

End json.

(** ** package net/http (with the route variables of gorilla/mux) *)
Module http.

Definition StatusOK : Z := 200.
Definition StatusCreated : Z := 201.
Definition StatusNoContent : Z := 204.
Definition StatusBadRequest : Z := 400.
Definition StatusInternalServerError : Z := 500.

Record Request : Type := {
  Method : string;
  (** [mux.Vars(r)] *)
  Vars : gmap string string;
  (** [r.URL.Query()] *)
  URLQuery : gmap string (list string);
  (** [r.Body], as the JSON decoder reads it *)
  Body : json.Input
}.

(** [url.Values.Get]: the first value of the key, or the empty string. *)
Definition Get (values : gmap string (list string)) (key : string) : string :=
  match values !! key with
  | Some (v :: _) => v
  | _ => ""
  end.

(** What is written to the body: [Line s] is the text [s] printed as
    one line (what [http.Error] does with its message), [JSON v] is one
    document written by a [json.Encoder]. *)
Inductive Chunk : Type :=
| Line (text : string)
| JSON (v : json.Value).

(** The response under construction.  [Status] is [None] until the
    header has been written. *)
Record ResponseWriter : Type := {
  Header : gmap string string;
  Status : option Z;
  Written : list Chunk
}.

(** The writer a handler is given: nothing written yet. *)
Definition fresh (h : gmap string string) : ResponseWriter :=
  {| Header := h; Status := None; Written := [] |}.

(** [w.Header().Set(k, v)]; once the header is written, changes to the
    header map no longer reach the response. *)
Definition Set_ (k v : string) (w : ResponseWriter) : ResponseWriter :=
  match Status w with
  | Some _ => w
  | None => {| Header := <[k := v]> (Header w); Status := None; Written := Written w |}
  end.

Definition Del (k : string) (w : ResponseWriter) : ResponseWriter :=
  match Status w with
  | Some _ => w
  | None => {| Header := delete k (Header w); Status := None; Written := Written w |}
  end.

(** [w.WriteHeader(code)]: only the first call counts. *)
Definition WriteHeader (code : Z) (w : ResponseWriter) : ResponseWriter :=
  match Status w with
  | Some _ => w
  | None => {| Header := Header w; Status := Some code; Written := Written w |}
  end.

(** [w.Write]: writes the header with status 200 first if no header
    was written before. *)
Definition Write (c : Chunk) (w : ResponseWriter) : ResponseWriter :=
  let w := WriteHeader StatusOK w in
  {| Header := Header w; Status := Status w; Written := Written w ++ [c] |}.

(** [http.Error(w, msg, code)] *)
Definition Error (msg : string) (code : Z) (w : ResponseWriter) : ResponseWriter :=
  let w := Del "Content-Length" w in
  let w := Set_ "Content-Type" "text/plain; charset=utf-8" w in
  let w := Set_ "X-Content-Type-Options" "nosniff" w in
  let w := WriteHeader code w in
  Write (Line msg) w.

(** [json.NewEncoder(w).Encode(v)] *)
Definition Encode (v : json.Value) (w : ResponseWriter) : ResponseWriter :=
  Write (JSON v) w.

End http.

(** ** package database/sql *)
Module sql.

(** [driver.Value]: what the driver hands over for one column. *)
Inductive Value : Type :=
| Null
| Int (n : Z)
| Text (s : string)
| Bool (b : bool).

Definition Row : Type := list Value.

(** A result set: the rows [Next] delivers, and the error ([Rows.Err])
    that may have ended the iteration early. *)
Record Rows : Type := {
  Data : list Row;
  Err : option error
}.

Record Result : Type := { RowsAffected : Z }.

(** One statement sent over the connection: its text and the values
    bound to its placeholders. *)
Definition Stmt : Type := string * list Value.

(** The database behind the handle, as far as the service sees it. *)
Record Driver (S : Type) : Type := {
  QueryContext : string -> list Value -> S -> S * (error + Rows);
  ExecContext : string -> list Value -> S -> S * (error + Result)
}.
Arguments QueryContext {S}.
Arguments ExecContext {S}.

(** [*sql.DB]: the state of the database, and the statements issued
    through the handle so far (oldest first). *)
Record DB (S : Type) : Type := {
  store : S;
  issued : list Stmt
}.
Arguments store {S}.
Arguments issued {S}.

Definition Open {S : Type} (st : S) : DB S := {| store := st; issued := [] |}.

Definition Query {S : Type} (drv : Driver S) (query : string) (args : list Value)
    (db : DB S) : DB S * (error + Rows) :=
  let '(st, res) := QueryContext drv query args (store db) in
  ({| store := st; issued := issued db ++ [(query, args)] |}, res).

Definition Exec {S : Type} (drv : Driver S) (query : string) (args : list Value)
    (db : DB S) : DB S * (error + Result) :=
  let '(st, res) := ExecContext drv query args (store db) in
  ({| store := st; issued := issued db ++ [(query, args)] |}, res).

(** *** [Rows.Scan]: the conversions of [convertAssign] into the four
    destination types the handlers scan into. *)

Definition unsupported (what : string) : error :=
  "sql: Scan error: " +:+ what.

Definition toInt (v : Value) : error + Z :=
  match v with
  | Int n => inr n
  | Text s =>
      match strconv.Atoi s with
      | inr n => inr n
      | inl _ => inl (unsupported "converting driver.Value type string to a int")
      end
  | Bool _ => inl (unsupported "converting driver.Value type bool to a int")
  | Null => inl (unsupported "converting NULL to int is unsupported")
  end.

Definition FormatInt (n : Z) : string :=
  DecimalString.NilZero.string_of_int (Z.to_int n).

Definition toString (v : Value) : error + string :=
  match v with
  | Text s => inr s
  | Int n => inr (FormatInt n)
  | Bool b => inr (if b then "true" else "false")
  | Null => inl (unsupported "converting NULL to string is unsupported")
  end.

(** [strconv.ParseBool], used for a textual column scanned into a bool. *)
Definition ParseBool (s : string) : option bool :=
  if existsb (String.eqb s) ["1"; "t"; "T"; "TRUE"; "true"; "True"] then Some true
  else if existsb (String.eqb s) ["0"; "f"; "F"; "FALSE"; "false"; "False"] then Some false
  else None.

Definition toBool (v : Value) : error + bool :=
  match v with
  | Bool b => inr b
  | Int n =>
      if n =? 1 then inr true
      else if n =? 0 then inr false
      else inl (unsupported "couldn't convert integer into type bool")
  | Text s =>
      match ParseBool s with
      | Some b => inr b
      | None => inl (unsupported "couldn't convert string into type bool")
      end
  | Null => inl (unsupported "converting NULL to bool is unsupported")
  end.

(** A [*int] destination takes NULL as the nil pointer. *)
Definition toIntPtr (v : Value) : error + option Z :=
  match v with
  | Null => inr None
  | _ => match toInt v with
         | inr n => inr (Some n)
         | inl e => inl e
         end
  end.

Definition wrongArity : error :=
  "sql: wrong number of destination arguments in Scan".

(** The loop [for rows.Next() { ... rows.Scan(...) ...; xs = append(xs, x) }]
    of both list handlers: the first row that fails to scan ends it. *)
Fixpoint scanAll {T : Type} (scan : Row -> error + T) (rows : list Row)
    (acc : slice T) : error + slice T :=
  match rows with
  | [] => inr acc
  | row :: rest =>
      match scan row with
      | inl err => inl err
      | inr x => scanAll scan rest (append acc x)
      end
  end.

End sql.

(** Sequencing of fallible steps ([x ← m; k]): the first error ends the
    sequence, as the early [return] after a failed call does. *)
#[global] Instance sum_bind {E : Type} : MBind (sum E) :=
  fun A B k m =>
    match m with
    | inl e => inl e
    | inr a => k a
    end.

(** ** The SQL text of [main.go] *)

(** The backquoted literal of [getFavorites], line breaks and indentation
    included. *)
Definition sqlSelectFavorites : string :=
  "
        SELECT f.id, f.item_id, s.title, s.price, s.imageUrl, s.isFavorite, s.favoriteId, s.isAdded
        FROM favorite f
        INNER JOIN sneakers s ON f.item_id = s.id".

Definition sqlInsertFavorite : string := "INSERT INTO favorite (item_id) VALUES ($1)".
Definition sqlDeleteFavorite : string := "DELETE FROM favorite WHERE id = $1".
Definition sqlSelectItems : string := "SELECT * FROM sneakers".
Definition sqlWhereTitle : string := " WHERE title ILIKE $1".

(** ** The anonymous structs of the handlers *)

(** The element type of [favorites] in [getFavorites]. *)
Module Favorite.

Record t : Type := {
  ID : Z;
  ItemID : Z;
  Title : string;
  Price : Z;
  ImageURL : string;
  IsFavorite : bool;
  FavoriteID : option Z;
  IsAdded : bool
}.

(** [rows.Scan(&f.ID, &f.ItemID, &f.Title, &f.Price, &f.ImageURL,
    &f.IsFavorite, &f.FavoriteID, &f.IsAdded)] *)
Definition Scan (row : sql.Row) : error + t :=
  match row with
  | [c0; c1; c2; c3; c4; c5; c6; c7] =>
      id ← sql.toInt c0;
      itemID ← sql.toInt c1;
      title ← sql.toString c2;
      price ← sql.toInt c3;
      imageURL ← sql.toString c4;
      isFavorite ← sql.toBool c5;
      favoriteID ← sql.toIntPtr c6;
      isAdded ← sql.toBool c7;
      inr {| ID := id; ItemID := itemID; Title := title; Price := price;
             ImageURL := imageURL; IsFavorite := isFavorite;
             FavoriteID := favoriteID; IsAdded := isAdded |}
  | _ => inl sql.wrongArity
  end.

(** The object the struct tags describe. *)
Definition Marshal (f : t) : json.Value :=
  json.Obj [("id", json.Num (ID f));
            ("item_id", json.Num (ItemID f));
            ("title", json.Str (Title f));
            ("price", json.Num (Price f));
            ("image_url", json.Str (ImageURL f));
            ("is_favorite", json.Bool (IsFavorite f));
            ("favorite_id", json.IntPtr (FavoriteID f));
            ("is_added", json.Bool (IsAdded f))].

End Favorite.

(** The element type of [items] in [getItems]. *)
Module Item.

Record t : Type := {
  ID : Z;
  Title : string;
  Price : Z;
  ImageURL : string;
  IsFavorite : bool;
  FavoriteID : option Z;
  IsAdded : bool
}.

(** [rows.Scan(&i.ID, &i.Title, &i.Price, &i.ImageURL, &i.IsFavorite,
    &i.FavoriteID, &i.IsAdded)] *)
Definition Scan (row : sql.Row) : error + t :=
  match row with
  | [c0; c1; c2; c3; c4; c5; c6] =>
      id ← sql.toInt c0;
      title ← sql.toString c1;
      price ← sql.toInt c2;
      imageURL ← sql.toString c3;
      isFavorite ← sql.toBool c4;
      favoriteID ← sql.toIntPtr c5;
      isAdded ← sql.toBool c6;
      inr {| ID := id; Title := title; Price := price; ImageURL := imageURL;
             IsFavorite := isFavorite; FavoriteID := favoriteID;
             IsAdded := isAdded |}
  | _ => inl sql.wrongArity
  end.

Definition Marshal (i : t) : json.Value :=
  json.Obj [("id", json.Num (ID i));
            ("title", json.Str (Title i));
            ("price", json.Num (Price i));
            ("image_url", json.Str (ImageURL i));
            ("is_favorite", json.Bool (IsFavorite i));
            ("favorite_id", json.IntPtr (FavoriteID i));
            ("is_added", json.Bool (IsAdded i))].

End Item.

(** The variable [data] of [postFavorite]. *)
Module Data.

Record t : Type := { ItemID : Z }.

(** [json.NewDecoder(r.Body).Decode(&data)] on the zero value of the
    struct: a syntax error is returned as it is; [null] changes
    nothing; an object fills the field tagged [item_id]; any other
    document cannot be stored into a struct. *)
Definition Decode (body : json.Input) : error + t :=
  match body with
  | json.Malformed err => inl err
  | json.Document json.Null => inr {| ItemID := 0 |}
  | json.Document (json.Obj members) =>
      match json.intMembers "item_id" members 0 None with
      | (Some err, _) => inl err
      | (None, n) => inr {| ItemID := n |}
      end
  | json.Document v =>
      inl ("json: cannot unmarshal " +:+ json.kind v +:+ " into Go value of type struct")
  end.

End Data.

(** ** The handlers of [main.go] *)
Section Handlers.

Context {S : Type} (drv : sql.Driver S).

(** An [http.Handler] closed over the database handle. *)
Definition Handler : Type :=
  http.ResponseWriter -> http.Request -> sql.DB S -> http.ResponseWriter * sql.DB S.

Definition enableCORS (next : Handler) : Handler :=
  fun w r db =>
    let w := http.Set_ "Access-Control-Allow-Origin" "*" w in
    let w := http.Set_ "Access-Control-Allow-Methods" "POST, GET, OPTIONS, PUT, DELETE" w in
    let w := http.Set_ "Access-Control-Allow-Headers"
               "Accept, Content-Type, Content-Length, Accept-Encoding, X-CSRF-Token, Authorization" w in
    if String.eqb (http.Method r) "OPTIONS" then
      (http.WriteHeader http.StatusOK w, db)
    else
      next w r db.

Definition getFavorites : Handler :=
  fun w r db =>
    let query := sqlSelectFavorites in
    let '(db, res) := sql.Query drv query [] db in
    match res with
    | inl err => (http.Error err http.StatusInternalServerError w, db)
    | inr rows =>
        match sql.scanAll Favorite.Scan (sql.Data rows) None with
        | inl err => (http.Error err http.StatusInternalServerError w, db)
        | inr favorites =>
            let w := http.Set_ "Content-Type" "application/json" w in
            (http.Encode (json.Slice Favorite.Marshal favorites) w, db)
        end
    end.

Definition postFavorite : Handler :=
  fun w r db =>
    match Data.Decode (http.Body r) with
    | inl err => (http.Error err http.StatusBadRequest w, db)
    | inr data =>
        let '(db, res) := sql.Exec drv sqlInsertFavorite [sql.Int (Data.ItemID data)] db in
        match res with
        | inl err => (http.Error err http.StatusInternalServerError w, db)
        | inr _ => (http.WriteHeader http.StatusCreated w, db)
        end
    end.

(** (Indexing [vars] with a key it does not hold gives the empty string.) *)
Definition deleteFavorite : Handler :=
  fun w r db =>
    let vars := http.Vars r in
    match strconv.Atoi (default "" (vars !! "favoriteId")) with
    | inl _ => (http.Error "Invalid favorite ID" http.StatusBadRequest w, db)
    | inr favoriteId =>
        let '(db, res) := sql.Exec drv sqlDeleteFavorite [sql.Int favoriteId] db in
        match res with
        | inl err => (http.Error err http.StatusInternalServerError w, db)
        | inr _ => (http.WriteHeader http.StatusNoContent w, db)
        end
    end.

(** The query text [getItems] builds from its two parameters: the
    statements from [query := "SELECT * FROM sneakers"] to the ORDER BY
    one, in their order.  [fmt.Sprintf(" ORDER BY %s", sortBy)] is the
    concatenation it is written as here. *)
Definition itemsQuery (sortBy searchQuery : string) : string :=
  let query := sqlSelectItems in
  let query := if negb (String.eqb searchQuery "") then query +:+ sqlWhereTitle else query in
  let query := if negb (String.eqb sortBy "") then query +:+ (" ORDER BY " +:+ sortBy) else query in
  query.

Definition getItems : Handler :=
  fun w r db =>
    let params := http.URLQuery r in
    let sortBy := http.Get params "sortBy" in
    let searchQuery := http.Get params "title" in
    let query := itemsQuery sortBy searchQuery in
    let '(db, res) :=
      if negb (String.eqb searchQuery "") then
        sql.Query drv query [sql.Text ("%" +:+ searchQuery +:+ "%")] db
      else
        sql.Query drv query [] db in
    match res with
    | inl err => (http.Error err http.StatusInternalServerError w, db)
    | inr rows =>
        match sql.scanAll Item.Scan (sql.Data rows) None with
        | inl err => (http.Error err http.StatusInternalServerError w, db)
        | inr items =>
            let w := http.Set_ "Content-Type" "application/json" w in
            (http.Encode (json.Slice Item.Marshal items) w, db)
        end
    end.

End Handlers.

(** ** The reference store

    The two relations the statements of [main.go] name, and what each of
    those statements does to them:
    [favorite(id, item_id)], whose [id] the store draws from a sequence,
    and [sneakers(id, title, price, imageUrl, isFavorite, favoriteId,
    isAdded)], in the column order [getItems] scans [SELECT *] in. *)
Module pg.

(** Modelled from the spec: the schema of the relation [favorite] of the
    external store, which [main.go] uses and does not declare
    ("favorite(id, item_id)", the identifier "generated by the store"). *)
Record favorite_row : Type := {
  f_id : Z;
  f_item_id : Z
}.

(** Modelled from the spec: the schema of the relation [sneakers] of the
    external store, which [main.go] uses and does not declare
    ("sneakers(id, title, price, imageUrl, isFavorite, favoriteId,
    isAdded)", the favorite identifier "optional, nullable").  The column
    types are those of the fields [getItems] scans them into. *)
Record sneakers_row : Type := {
  s_id : Z;
  s_title : string;
  s_price : Z;
  s_imageUrl : string;
  s_isFavorite : bool;
  s_favoriteId : option Z;
  s_isAdded : bool
}.

(** Modelled from the spec: the persisted state, "an external relational
    store with at least two relations".  Whether the store enforces the
    reference from a favorite to its sneaker is left open there
    ("foreign-key violation, if enforced by the store"), hence the flag. *)
Record Store : Type := {
  favorite : list favorite_row;
  sneakers : list sneakers_row;
  (** the next value of the sequence behind [favorite.id] *)
  favorite_id_seq : Z;
  (** whether [favorite.item_id] is declared to reference [sneakers(id)] *)
  favorite_item_fk : bool
}.

(** *** LIKE and ILIKE *)

(** The text of the store is UTF-8 (lib/pq asks for that client
    encoding): a byte from 0x80 to 0xBF continues a character. *)
Definition continuation (c : ascii) : bool :=
  let b := N_of_ascii c in
  ((128 <=? b) && (b <=? 191))%N.

(** [t] starts in the middle of a character. *)
Definition inside (t : list ascii) : bool :=
  match t with
  | [] => false
  | a :: _ => continuation a
  end.

(** The rest of [t] from the next start of a character on. *)
Fixpoint NextChar (t : list ascii) : list ascii :=
  match t with
  | [] => []
  | a :: t' => if continuation a then NextChar t' else t
  end.

(** [rest] matches from the start of one of the characters of [t]
    after the first. *)
Fixpoint skip (rest : list ascii -> bool) (t : list ascii) : bool :=
  match t with
  | [] => false
  | _ :: t' => (negb (inside t') && rest t') || skip rest t'
  end.

(** [LIKE]: [%] matches any run of characters, [_] any one character,
    and a backslash makes the next pattern character stand for itself.
    A literal is compared byte by byte; [%] and [_] step over the text
    by characters.  (A pattern ending in a lone backslash is malformed;
    it matches nothing here.) *)
Fixpoint like (p : list ascii) (t : list ascii) {struct p} : bool :=
  match p with
  | [] => match t with [] => true | _ => false end
  | c :: p' =>
      if Ascii.eqb c "%" then like p' t || skip (like p') t
      else if Ascii.eqb c "_" then
        match t with
        | [] => false
        | _ :: t' => like p' (NextChar t')
        end
      else if Ascii.eqb c "\" then
        match p' with
        | [] => false
        | e :: p'' =>
            match t with
            | [] => false
            | a :: t' => Ascii.eqb e a && like p'' t'
            end
        end
      else
        match t with
        | [] => false
        | a :: t' => Ascii.eqb c a && like p' t'
        end
  end.

(** [value ILIKE pattern]: [LIKE] after [lower] on both.  The store
    has the collation C, in which [lower] folds the letters A to Z and
    no other character. *)
Definition ILIKE (value pattern : string) : bool :=
  like (list_ascii_of_string (lower pattern)) (list_ascii_of_string (lower value)).

(** *** Text the server accepts *)

Definition between (lo hi : N) (c : ascii) : bool :=
  let b := N_of_ascii c in
  ((lo <=? b) && (b <=? hi))%N.

(** Well-formed UTF-8 without the character of code 0: what the server
    accepts as a value of type text. *)
Fixpoint valid (t : list ascii) {struct t} : bool :=
  match t with
  | [] => true
  | a :: t1 =>
      if between 1 127 a then valid t1
      else if between 194 223 a then
        match t1 with
        | c1 :: t2 => continuation c1 && valid t2
        | _ => false
        end
      else if between 224 239 a then
        match t1 with
        | c1 :: c2 :: t3 =>
            (if between 224 224 a then between 160 191 c1
             else if between 237 237 a then between 128 159 c1
             else continuation c1)
            && continuation c2 && valid t3
        | _ => false
        end
      else if between 240 244 a then
        match t1 with
        | c1 :: c2 :: c3 :: t4 =>
            (if between 240 240 a then between 144 191 c1
             else if between 244 244 a then between 128 143 c1
             else continuation c1)
            && continuation c2 && continuation c3 && valid t4
        | _ => false
        end
      else false
  end.

Definition validText (s : string) : bool := valid (list_ascii_of_string s).

Definition invalidByteSequence : error :=
  "pq: invalid byte sequence for encoding UTF8".

(** *** The statements *)

Definition nullable (v : option Z) : sql.Value :=
  match v with
  | None => sql.Null
  | Some n => sql.Int n
  end.

(** One row of [SELECT * FROM sneakers]. *)
Definition star (s : sneakers_row) : sql.Row :=
  [sql.Int (s_id s); sql.Text (s_title s); sql.Int (s_price s);
   sql.Text (s_imageUrl s); sql.Bool (s_isFavorite s);
   nullable (s_favoriteId s); sql.Bool (s_isAdded s)].

(** One row of the select list of the join. *)
Definition joined (f : favorite_row) (s : sneakers_row) : sql.Row :=
  [sql.Int (f_id f); sql.Int (f_item_id f); sql.Text (s_title s);
   sql.Int (s_price s); sql.Text (s_imageUrl s); sql.Bool (s_isFavorite s);
   nullable (s_favoriteId s); sql.Bool (s_isAdded s)].

(** [FROM favorite f INNER JOIN sneakers s ON f.item_id = s.id] *)
Definition innerJoin (st : Store) : list (favorite_row * sneakers_row) :=
  flat_map
    (fun f => map (pair f)
                (List.filter (fun s => f_item_id f =? s_id s) (sneakers st)))
    (favorite st).

(** The whole SELECT of [getFavorites]. *)
Definition selectFavorites (st : Store) : list sql.Row :=
  map (fun fs => joined fs.1 fs.2) (innerJoin st).

(** [SELECT * FROM sneakers WHERE title ILIKE $1] *)
Definition selectItemsWhere (pattern : string) (st : Store) : list sneakers_row :=
  List.filter (fun s => ILIKE (s_title s) pattern) (sneakers st).

Definition references (st : Store) (item : Z) : bool :=
  existsb (fun s => s_id s =? item) (sneakers st).

Definition fkViolation : error :=
  "pq: insert or update on table favorite violates foreign key constraint".

(** [INSERT INTO favorite (item_id) VALUES ($1)]: the new row takes its
    [id] from the sequence.  The schema is not part of the repository;
    the store checks the foreign key when [favorite_item_fk] says so and
    declares no other constraint, so the new [id] is one of a kind only
    while the sequence is ahead of the table ([consistent] below). *)
Definition insertFavorite (item : Z) (st : Store) : Store * (error + sql.Result) :=
  if favorite_item_fk st && negb (references st item) then
    (st, inl fkViolation)
  else
    ({| favorite := favorite st ++ [{| f_id := favorite_id_seq st; f_item_id := item |}];
        sneakers := sneakers st;
        favorite_id_seq := favorite_id_seq st + 1;
        favorite_item_fk := favorite_item_fk st |},
     inr {| sql.RowsAffected := 1 |}).

(** [DELETE FROM favorite WHERE id = $1] *)
Definition deleteFavorite (n : Z) (st : Store) : Store * (error + sql.Result) :=
  let kept := List.filter (fun f => negb (f_id f =? n)) (favorite st) in
  ({| favorite := kept;
      sneakers := sneakers st;
      favorite_id_seq := favorite_id_seq st;
      favorite_item_fk := favorite_item_fk st |},
   inr {| sql.RowsAffected := Z.of_nat (length (favorite st)) - Z.of_nat (length kept) |}).

Definition rows (data : list sql.Row) : sql.Rows :=
  {| sql.Data := data; sql.Err := None |}.

(** The store as a driver.  It gives their meaning to the statements
    whose text is fixed in [main.go]; what any other text does (the one
    with a client-chosen ORDER BY among them) is left to [other].  A
    bound text the server does not accept fails the query. *)
Definition driver (other : sql.Driver Store) : sql.Driver Store :=
  {| sql.QueryContext := fun query args st =>
       match args with
       | [] =>
           if String.eqb query sqlSelectFavorites then
             (st, inr (rows (selectFavorites st)))
           else if String.eqb query sqlSelectItems then
             (st, inr (rows (map star (sneakers st))))
           else sql.QueryContext other query args st
       | [sql.Text pattern] =>
           if String.eqb query (sqlSelectItems +:+ sqlWhereTitle) then
             if validText pattern then
               (st, inr (rows (map star (selectItemsWhere pattern st))))
             else (st, inl invalidByteSequence)
           else sql.QueryContext other query args st
       | _ => sql.QueryContext other query args st
       end;
     sql.ExecContext := fun query args st =>
       match args with
       | [sql.Int n] =>
           if String.eqb query sqlInsertFavorite then insertFavorite n st
           else if String.eqb query sqlDeleteFavorite then deleteFavorite n st
           else sql.ExecContext other query args st
       | _ => sql.ExecContext other query args st
       end |}.

(** The simplest choice of [other], for running the handlers on
    requests that lead to the fixed statements only: every other text
    is refused. *)
Definition refusing : sql.Driver Store :=
  {| sql.QueryContext := fun _ _ st => (st, inl "pq: statement outside the reference store");
     sql.ExecContext := fun _ _ st => (st, inl "pq: statement outside the reference store") |}.

Definition fixed_only : sql.Driver Store := driver refusing.

(** *** ORDER BY *)

Fixpoint insertBy (key : sneakers_row -> Z) (s : sneakers_row)
    (l : list sneakers_row) : list sneakers_row :=
  match l with
  | [] => [s]
  | x :: l' => if key s <=? key x then s :: l else x :: insertBy key s l'
  end.

(** The rows in ascending order of [key]. *)
Definition orderBy (key : sneakers_row -> Z) (l : list sneakers_row) : list sneakers_row :=
  fold_right (insertBy key) [] l.






(** [sneakers.id] identifies a row. *)
Definition sneakers_key (st : Store) : Prop :=
  NoDup (map s_id (sneakers st)).

End pg.

(** ** package path *)
Module path.

(** [strings.Split(p, "/")]: the runs between the slashes of [p]. *)
Fixpoint elements (p : string) : list string :=
  match p with
  | EmptyString => [""]
  | String c p' =>
      if Ascii.eqb c "/" then "" :: elements p'
      else
        match elements p' with
        | [] => [String c ""]
        | e :: es => String c e :: es
        end
  end.

(** One path element met by [Clean], with the elements kept so far
    (innermost first): an empty element and [.] are dropped, [..] takes
    back the last element kept, if any. *)
Definition step (kept : list string) (e : string) : list string :=
  if (String.eqb e "" || String.eqb e ".")%bool then kept
  else if String.eqb e ".." then tail kept
  else e :: kept.

Fixpoint join (es : list string) : string :=
  match es with
  | [] => ""
  | [e] => e
  | e :: es' => e +:+ "/" +:+ join es'
  end.

(** [path.Clean] on a path that starts with a slash. *)
Definition Clean (p : string) : string :=
  "/" +:+ join (rev (fold_left step (elements p) [])).

End path.

(** ** package gorilla/mux *)
Module mux.

Definition endsWithSlash (p : string) : bool :=
  match rev (list_ascii_of_string p) with
  | c :: _ => Ascii.eqb c "/"
  | [] => false
  end.

(** [cleanPath]: the canonical form of a request path; [path.Clean]
    drops a trailing slash, which is put back. *)
Definition cleanPath (p : string) : string :=
  if String.eqb p "" then "/"
  else
    let p := match p with
             | String c _ => if Ascii.eqb c "/" then p else "/" +:+ p
             | EmptyString => p
             end in
    let np := path.Clean p in
    if (endsWithSlash p && negb (String.eqb np "/"))%bool then np +:+ "/" else np.

(** The two shapes of path template [main] registers: a literal path,
    and a literal prefix followed by one variable in braces, which
    stands for a non-empty run of characters other than the slash. *)
Inductive Template : Type :=
| Literal (p : string)
| WithVar (prefix name : string).

Fixpoint trimPrefix (prefix s : string) : option string :=
  match prefix with
  | EmptyString => Some s
  | String c prefix' =>
      match s with
      | EmptyString => None
      | String a s' => if Ascii.eqb c a then trimPrefix prefix' s' else None
      end
  end.

Definition noSlash (s : string) : bool :=
  forallb (fun c => negb (Ascii.eqb c "/")) (list_ascii_of_string s).

(** The path matcher of a route: the variables of the match, if the
    whole path matches the template. *)
Definition matchPath (t : Template) (p : string) : option (gmap string string) :=
  match t with
  | Literal lit => if String.eqb p lit then Some ∅ else None
  | WithVar prefix name =>
      match trimPrefix prefix p with
      | Some seg =>
          if (negb (String.eqb seg "") && noSlash seg)%bool
          then Some {[ name := seg ]} else None
      | None => None
      end
  end.

Section Router.

Context {S : Type}.

(** [router.HandleFunc(template, f).Methods(methods...)] *)
Record Route : Type := {
  template : Template;
  methods : list string;
  handlerFunc : @Handler S
}.

Inductive RouteMatch : Type :=
| Matched (f : @Handler S) (vars : gmap string string)
| ErrMethodMismatch
| ErrNotFound.

(** [Router.Match]: the routes are tried in the order they were
    registered.  A route whose path matches and whose methods do not
    include the request's is passed over, and remembered. *)
Fixpoint Match (routes : list Route) (p method : string) (mismatch : bool) : RouteMatch :=
  match routes with
  | [] => if mismatch then ErrMethodMismatch else ErrNotFound
  | route :: rest =>
      match matchPath (template route) p with
      | None => Match rest p method mismatch
      | Some vars =>
          if existsb (String.eqb method) (methods route)
          then Matched (handlerFunc route) vars
          else Match rest p method true
      end
  end.

(** [Router.ServeHTTP] for a request whose [URL.Path] is [p].  A path
    that is not in canonical form is answered by a redirect to the form
    [cleanPath] gives; [location] stands for [url.String()], the text of
    the request URL with that path.  The matched handler sees the
    variables of the match as [mux.Vars(r)]. *)
Definition ServeHTTP (routes : list Route) (location : string -> string) (p : string)
    : @Handler S :=
  fun w r db =>
    if negb (String.eqb (cleanPath p) p) then
      (http.WriteHeader 301 (http.Set_ "Location" (location (cleanPath p)) w), db)
    else
      match Match routes p (http.Method r) false with
      | Matched f vars =>
          f w {| http.Method := http.Method r; http.Vars := vars;
                 http.URLQuery := http.URLQuery r; http.Body := http.Body r |} db
      | ErrMethodMismatch => (http.WriteHeader 405 w, db)
      | ErrNotFound => (http.Error "404 page not found" 404 w, db)
      end.

End Router.

Arguments Route : clear implicits.
Arguments RouteMatch : clear implicits.

End mux.

(** ** The routes of [main] *)

(** The four routes, in the order [main] registers them. *)
Definition router {S : Type} (db : sql.Driver S) : list (mux.Route S) :=
  [ {| mux.template := mux.Literal "/favorites"; mux.methods := ["GET"];
       mux.handlerFunc := getFavorites db |};
    {| mux.template := mux.Literal "/favorites"; mux.methods := ["POST"];
       mux.handlerFunc := postFavorite db |};
    {| mux.template := mux.WithVar "/favorites/" "favoriteId"; mux.methods := ["DELETE"];
       mux.handlerFunc := deleteFavorite db |};
    {| mux.template := mux.Literal "/items"; mux.methods := ["GET"];
       mux.handlerFunc := getItems db |} ].

(** [handler := enableCORS(router)], what [ListenAndServe] is given. *)
Definition handler {S : Type} (db : sql.Driver S) (location : string -> string)
    (p : string) : @Handler S :=
  enableCORS (mux.ServeHTTP (router db) location p).

(** The reference store keeps its keys: the identifiers of [favorite]
    are distinct and were all drawn from the sequence, and [sneakers.id]
    identifies a row. *)
Definition consistent (st : pg.Store) : Prop :=
  NoDup (map pg.f_id (pg.favorite st))
  ∧ Forall (fun f => pg.f_id f < pg.favorite_id_seq st) (pg.favorite st)
  ∧ pg.sneakers_key st.

(** The three header fields [enableCORS] sets. *)
Definition corsHeaders : list (string * string) :=
  [ ("Access-Control-Allow-Origin", "*");
    ("Access-Control-Allow-Methods", "POST, GET, OPTIONS, PUT, DELETE");
    ("Access-Control-Allow-Headers",
     "Accept, Content-Type, Content-Length, Accept-Encoding, X-CSRF-Token, Authorization") ].

(** The header map once [enableCORS] has set them. *)
Definition allowed (h : gmap string string) : gmap string string :=
  foldl (fun h kv => <[kv.1 := kv.2]> h) h corsHeaders.

(** The header fields an answer of a handler may set or remove. *)
Definition contentHeaders : list string :=
  ["Content-Type"; "X-Content-Type-Options"; "Content-Length"].

(** ** Vocabulary of the statements *)

(** The answer of a list handler to a failure: status 500, the error
    text as the only thing written, typed as plain text. *)
Definition internalServerError (err : error) (w : http.ResponseWriter) : Prop :=
  http.Status w = Some 500
  ∧ http.Written w = [http.Line err]
  ∧ http.Header w !! "Content-Type" = Some "text/plain; charset=utf-8".

(** The values [getItems] binds to the placeholders of its query. *)
Definition itemsBound (searchQuery : string) : list sql.Value :=
  if String.eqb searchQuery "" then [] else [sql.Text ("%" +:+ searchQuery +:+ "%")].

(** A database that gives one fixed answer to every query, for running
    the list handlers on result sets of any shape. *)
Definition answering (res : error + sql.Rows) : sql.Driver unit :=
  {| sql.QueryContext := fun _ _ st => (st, res);
     sql.ExecContext := fun _ _ st => (st, inl "answering: queries only") |}.

(** The struct a row of the join scans into. *)
Definition favorite_of (fs : pg.favorite_row * pg.sneakers_row) : Favorite.t :=
  {| Favorite.ID := pg.f_id fs.1;
     Favorite.ItemID := pg.f_item_id fs.1;
     Favorite.Title := pg.s_title fs.2;
     Favorite.Price := pg.s_price fs.2;
     Favorite.ImageURL := pg.s_imageUrl fs.2;
     Favorite.IsFavorite := pg.s_isFavorite fs.2;
     Favorite.FavoriteID := pg.s_favoriteId fs.2;
     Favorite.IsAdded := pg.s_isAdded fs.2 |}.

(** The struct a row of [sneakers] scans into. *)
Definition item_of (s : pg.sneakers_row) : Item.t :=
  {| Item.ID := pg.s_id s;
     Item.Title := pg.s_title s;
     Item.Price := pg.s_price s;
     Item.ImageURL := pg.s_imageUrl s;
     Item.IsFavorite := pg.s_isFavorite s;
     Item.FavoriteID := pg.s_favoriteId s;
     Item.IsAdded := pg.s_isAdded s |}.






(** *** Reading a response *)

(** The elements of a JSON array; a document that is no array has none. *)
Definition entries (v : json.Value) : list json.Value :=
  match v with
  | json.Arr l => l
  | _ => []
  end.

Fixpoint lookupMember (key : string) (members : list (string * json.Value)) :
    option json.Value :=
  match members with
  | [] => None
  | (k, v) :: rest => if String.eqb k key then Some v else lookupMember key rest
  end.

(** The member [key] of a JSON object. *)
Definition member (key : string) (v : json.Value) : option json.Value :=
  match v with
  | json.Obj members => lookupMember key members
  | _ => None
  end.

(** The entry of a favorites list with identifier [n]. *)
Definition hasId (n : Z) (e : json.Value) : bool :=
  match member "id" e with
  | Some (json.Num m) => m =? n
  | _ => false
  end.

(** The document a list handler answers with for the given entries:
    the array of them, and [null] when there is none. *)
Definition listJSON (l : list json.Value) : json.Value :=
  match l with
  | [] => json.Null
  | _ :: _ => json.Arr l
  end.

(** The entry of the items list for a row of [sneakers]. *)
Definition itemJSON (s : pg.sneakers_row) : json.Value :=
  json.Obj [("id", json.Num (pg.s_id s));
            ("title", json.Str (pg.s_title s));
            ("price", json.Num (pg.s_price s));
            ("image_url", json.Str (pg.s_imageUrl s));
            ("is_favorite", json.Bool (pg.s_isFavorite s));
            ("favorite_id", match pg.s_favoriteId s with
                            | None => json.Null
                            | Some n => json.Num n
                            end);
            ("is_added", json.Bool (pg.s_isAdded s))].

(** The entry of the favorites list for a row of the join. *)
Definition favoriteJSON (fs : pg.favorite_row * pg.sneakers_row) : json.Value :=
  json.Obj [("id", json.Num (pg.f_id fs.1));
            ("item_id", json.Num (pg.f_item_id fs.1));
            ("title", json.Str (pg.s_title fs.2));
            ("price", json.Num (pg.s_price fs.2));
            ("image_url", json.Str (pg.s_imageUrl fs.2));
            ("is_favorite", json.Bool (pg.s_isFavorite fs.2));
            ("favorite_id", match pg.s_favoriteId fs.2 with
                            | None => json.Null
                            | Some n => json.Num n
                            end);
            ("is_added", json.Bool (pg.s_isAdded fs.2))].

(** The line feed [fmt.Fprintln] and [Encoder.Encode] end their output
    with. *)
Definition newline : string := String "010" "".

(** The bytes of one write; [text] is the JSON text of a document. *)
Definition bytes (text : json.Value -> string) (c : http.Chunk) : string :=
  match c with
  | http.Line s => s +:+ newline
  | http.JSON v => text v +:+ newline
  end.

(** The body of the response. *)
Definition body (text : json.Value -> string) (w : http.ResponseWriter) : string :=
  String.concat "" (map (bytes text) (http.Written w)).

(** * Properties *)

(** ** The response writer *)

Lemma Error_fresh (h : gmap string string) (msg : string) (code : Z) :
  http.Error msg code (http.fresh h) =
  {| http.Header := <["X-Content-Type-Options" := "nosniff"]>
                      (<["Content-Type" := "text/plain; charset=utf-8"]>
                         (delete "Content-Length" h));
     http.Status := Some code;
     http.Written := [http.Line msg] |}.
Proof. reflexivity. Qed.

Lemma WriteHeader_fresh (h : gmap string string) (code : Z) :
  http.WriteHeader code (http.fresh h) =
  {| http.Header := h; http.Status := Some code; http.Written := [] |}.
Proof. reflexivity. Qed.

Lemma Encode_fresh (h : gmap string string) (v : json.Value) :
  http.Encode v (http.Set_ "Content-Type" "application/json" (http.fresh h)) =
  {| http.Header := <["Content-Type" := "application/json"]> h;
     http.Status := Some http.StatusOK;
     http.Written := [http.JSON v] |}.
Proof. reflexivity. Qed.

(** ** Decimal integers *)

Lemma of_uint_acc_ge (d : Decimal.uint) (acc : positive) :
  (acc <= Pos.of_uint_acc d acc)%positive.
Proof.
  revert acc. induction d as [|d IHd|d IHd|d IHd|d IHd|d IHd|d IHd|d IHd|d IHd|d IHd|d IHd]; intros acc; simpl; try lia;
    (etransitivity; [|apply IHd]); lia.
Qed.

Lemma ParseUint_acc (d : Decimal.uint) (acc : positive) :
  Zpos (Pos.of_uint_acc d acc) <= 2 ^ 64 - 1 →
  strconv.ParseUint (NilEmpty.string_of_uint d) (Zpos acc)
  = inr (Zpos (Pos.of_uint_acc d acc)).
Proof.
  revert acc. induction d as [|d IHd|d IHd|d IHd|d IHd|d IHd|d IHd|d IHd|d IHd|d IHd|d IHd]; intros acc Hfit; simpl in Hfit |- *; [reflexivity|..].
  all: unfold strconv.digit; simpl.
  all: match goal with
       | |- context [Z.of_nat (nat_of_ascii ?c) - 48] =>
           let k := eval vm_compute in (Z.of_nat (nat_of_ascii c) - 48) in
           change (Z.of_nat (nat_of_ascii c) - 48) with k
       end.
  all: match goal with
       | Hfit : Zpos (Pos.of_uint_acc ?l ?a) <= _ |- context [2 ^ 64 - 1 <? ?n1] =>
           replace n1 with (Zpos a) by lia;
           pose proof (of_uint_acc_ge l a);
           destruct (Z.ltb_spec (2 ^ 64 - 1) (Zpos a)); [lia|];
           apply IHd; exact Hfit
       end.
Qed.

Lemma ParseUint_of_uint (d : Decimal.uint) :
  Z.of_N (Pos.of_uint d) <= 2 ^ 64 - 1 →
  strconv.ParseUint (NilEmpty.string_of_uint d) 0 = inr (Z.of_N (Pos.of_uint d)).
Proof.
  induction d as [|d IHd|d IHd|d IHd|d IHd|d IHd|d IHd|d IHd|d IHd|d IHd|d IHd];
    intros Hfit; simpl in Hfit |- *; [reflexivity|exact (IHd Hfit)|..].
  all: unfold strconv.digit; simpl.
  all: exact (ParseUint_acc d _ Hfit).
Qed.

(** Every [int] is the value of a path segment: its decimal form. *)
Lemma Atoi_FormatInt (n : Z) :
  is_int n = true → strconv.Atoi (sql.FormatInt n) = inr n.
Proof.
  unfold is_int, int_min, int_max, sql.FormatInt. intros Hint.
  apply andb_true_iff in Hint as [Hlo Hhi].
  apply Z.leb_le in Hlo, Hhi.
  destruct n as [|p|p]; [reflexivity|..]; simpl Z.to_int;
    unfold NilZero.string_of_int, NilZero.string_of_uint;
    pose proof (Unsigned.of_to p) as Hval;
    pose proof (Unsigned.to_uint_nonnil p) as Hnil;
    pose proof (ParseUint_of_uint (Pos.to_uint p)) as Hparse;
    rewrite Hval in Hparse; specialize (Hparse ltac:(simpl; lia));
    destruct (Pos.to_uint p) as [|d|d|d|d|d|d|d|d|d|d]; try congruence;
    unfold strconv.Atoi; simpl in Hparse |- *; rewrite Hparse.
  all: simpl.
  all: try (destruct (Z.leb_spec (2 ^ 63) (Z.pos p)); [lia|reflexivity]).
  all: try (destruct (Z.ltb_spec (2 ^ 63) (Z.pos p)); [lia|reflexivity]).
Qed.

(** ** CORS *)

(** C4. For every request the middleware puts the three Access-Control
    headers on the response.  When the method is OPTIONS the response is
    status 200 with nothing written, whatever the wrapped handler is (it
    is not run: the result does not depend on it, and the database handle
    is returned untouched); for every other method the result is that of
    the wrapped handler, run on the writer carrying the three headers. *)
Theorem enableCORS_preflight_or_delegate {S : Type} (next : @Handler S)
    (h : gmap string string) (r : http.Request) (db : sql.DB S) :
  let allowed : gmap string string :=
    <["Access-Control-Allow-Headers" :=
        "Accept, Content-Type, Content-Length, Accept-Encoding, X-CSRF-Token, Authorization"]>
      (<["Access-Control-Allow-Methods" := "POST, GET, OPTIONS, PUT, DELETE"]>
         (<["Access-Control-Allow-Origin" := "*"]> h)) in
  allowed !! "Access-Control-Allow-Origin" = Some "*"
  ∧ allowed !! "Access-Control-Allow-Methods" = Some "POST, GET, OPTIONS, PUT, DELETE"
  ∧ allowed !! "Access-Control-Allow-Headers" =
      Some "Accept, Content-Type, Content-Length, Accept-Encoding, X-CSRF-Token, Authorization"
  ∧ enableCORS next (http.fresh h) r db =
      if String.eqb (http.Method r) "OPTIONS" then
        ({| http.Header := allowed; http.Status := Some 200; http.Written := [] |}, db)
      else
        next (http.fresh allowed) r db.
Proof.
  intros allowed. subst allowed.
  split; [|split; [|split]].
  - rewrite lookup_insert_ne by done. rewrite lookup_insert_ne by done.
    apply lookup_insert_eq.
  - rewrite lookup_insert_ne by done. apply lookup_insert_eq.
  - apply lookup_insert_eq.
  - unfold enableCORS. destruct (String.eqb (http.Method r) "OPTIONS"); reflexivity.
Qed.

(** ** The query of GET /items *)

(** C3. The text [getItems] sends is the base query, followed by the
    ILIKE filter exactly when [title] is non-empty, followed by ORDER BY
    and the [sortBy] value as it came in exactly when [sortBy] is
    non-empty.  The title travels as the one bound value, wrapped in
    [%]; [sortBy] is part of the text. *)
Theorem getItems_query_text {S : Type} (drv : sql.Driver S)
    (h : gmap string string) (r : http.Request) (db : sql.DB S) :
  let sortBy := http.Get (http.URLQuery r) "sortBy" in
  let title := http.Get (http.URLQuery r) "title" in
  let text :=
    "SELECT * FROM sneakers"
    +:+ (if String.eqb title "" then "" else " WHERE title ILIKE $1")
    +:+ (if String.eqb sortBy "" then "" else " ORDER BY " +:+ sortBy) in
  let bound :=
    if String.eqb title "" then [] else [sql.Text ("%" +:+ title +:+ "%")] in
  itemsQuery sortBy title = text
  ∧ sql.issued (getItems drv (http.fresh h) r db).2 = sql.issued db ++ [(text, bound)].
Proof.
  intros sortBy title text bound.
  assert (Htext : itemsQuery sortBy title = text).
  { subst text. unfold itemsQuery.
    destruct (String.eqb title ""), (String.eqb sortBy ""); reflexivity. }
  split; [exact Htext|].
  unfold getItems. fold sortBy title. rewrite Htext. subst bound.
  destruct (String.eqb title ""); simpl; unfold sql.Query;
    destruct (sql.QueryContext drv text _ (sql.store db)) as [st [err|rows]];
    simpl; try reflexivity;
    destruct (sql.scanAll Item.Scan (sql.Data rows) None); reflexivity.
Qed.

(** ** POST /favorites *)

(** C5, as stated, fails: a body that decodes does not always end in
    201 and a new row.  Here the store enforces the reference from
    [favorite.item_id] to [sneakers] and holds no sneaker 7; the body
    [{"item_id": 7}] decodes, the insert is refused, the answer is 500
    and the relation is as before. *)
Lemma postFavorite_decoded_but_refused :
  let st := {| pg.favorite := []; pg.sneakers := [];
               pg.favorite_id_seq := 1; pg.favorite_item_fk := true |} in
  let r := {| http.Method := "POST"; http.Vars := ∅; http.URLQuery := ∅;
              http.Body := json.Document (json.Obj [("item_id", json.Num 7)]) |} in
  let out := postFavorite pg.fixed_only (http.fresh ∅) r (sql.Open st) in
  Data.Decode (http.Body r) = inr {| Data.ItemID := 7 |}
  ∧ http.Status out.1 = Some 500
  ∧ http.Status out.1 ≠ Some 201
  ∧ pg.favorite (sql.store out.2) = pg.favorite st.
Proof. repeat split; try reflexivity. discriminate. Qed.

(** C5, amended.  The answer is 400 exactly when the body fails to
    decode; it then carries the decoder's error text, and no statement
    is issued and the store is untouched.  When the body decodes, the
    handler issues the one INSERT with the decoded identifier; it answers
    201 with nothing written if the statement succeeds and 500 with the
    statement's error text if it fails.  On the reference store a
    successful INSERT adds exactly one row, holding that identifier, and
    a refused one leaves the relation as it was. *)
Theorem postFavorite_outcomes {S : Type} (drv : sql.Driver S)
    (h : gmap string string) (r : http.Request) (db : sql.DB S) :
  let out := postFavorite drv (http.fresh h) r db in
  (http.Status out.1 = Some 400 ↔ ∃ err, Data.Decode (http.Body r) = inl err)
  ∧ match Data.Decode (http.Body r) with
    | inl err =>
        http.Written out.1 = [http.Line err] ∧ out.2 = db
    | inr data =>
        let stmt := (sqlInsertFavorite, [sql.Int (Data.ItemID data)]) in
        let done := sql.ExecContext drv stmt.1 stmt.2 (sql.store db) in
        out.2 = {| sql.store := done.1; sql.issued := sql.issued db ++ [stmt] |}
        ∧ match done.2 with
          | inr _ => http.Status out.1 = Some 201 ∧ http.Written out.1 = []
          | inl err => http.Status out.1 = Some 500 ∧ http.Written out.1 = [http.Line err]
          end
    end
  ∧ ∀ (other : sql.Driver pg.Store) (st : pg.Store) (n : Z),
      let done := sql.ExecContext (pg.driver other) sqlInsertFavorite [sql.Int n] st in
      match done.2 with
      | inr _ =>
          pg.favorite done.1
          = pg.favorite st ++ [{| pg.f_id := pg.favorite_id_seq st; pg.f_item_id := n |}]
      | inl _ => pg.favorite done.1 = pg.favorite st
      end.
Proof.
  intros out. subst out. unfold postFavorite, sql.Exec.
  split; [|split].
  - destruct (Data.Decode (http.Body r)) as [err|data].
    + simpl. split; [eauto|reflexivity].
    + destruct (sql.ExecContext drv _ _ (sql.store db)) as [st [err|res]]; simpl;
        (split; [discriminate | intros [e He]; discriminate]).
  - destruct (Data.Decode (http.Body r)) as [err|data].
    + split; reflexivity.
    + simpl. destruct (sql.ExecContext drv _ _ (sql.store db)) as [st [err|res]];
        simpl; repeat split; reflexivity.
  - intros other st n. simpl. unfold pg.insertFavorite.
    destruct (pg.favorite_item_fk st && negb (pg.references st n)); reflexivity.
Qed.

(** ** DELETE /favorites/{favoriteId} *)

(** C6, as stated, fails on the body.  For the segment [abc] the answer
    is 400, but the body is not exactly [Invalid favorite ID]: it is
    that text followed by a line feed, 20 bytes in all, because
    [http.Error] prints the message with [fmt.Fprintln]. *)
Lemma deleteFavorite_invalid_id_body_ends_with_newline :
  let r := {| http.Method := "DELETE"; http.Vars := {[ "favoriteId" := "abc" ]};
              http.URLQuery := ∅; http.Body := json.Malformed "EOF" |} in
  let db := sql.Open {| pg.favorite := [{| pg.f_id := 1; pg.f_item_id := 2 |}];
                        pg.sneakers := []; pg.favorite_id_seq := 2;
                        pg.favorite_item_fk := false |} in
  let out := deleteFavorite pg.fixed_only (http.fresh ∅) r db in
  strconv.Atoi "abc" = inl strconv.ErrSyntax
  ∧ http.Status out.1 = Some 400
  ∧ (∀ text, body text out.1 = String.append "Invalid favorite ID" (String "010" ""))
  ∧ (∀ text, body text out.1 ≠ "Invalid favorite ID")
  ∧ (∀ text, String.length (body text out.1) = 20%nat)
  ∧ String.length "Invalid favorite ID" = 19%nat.
Proof.
  vm_compute. split; [reflexivity|]. split; [reflexivity|].
  split; [intros _; reflexivity|]. split; [intros _; discriminate|].
  split; [intros _; reflexivity|reflexivity].
Qed.

(** C6, amended.  When the path segment does not parse as an integer,
    the answer is 400, what is written is the one line
    [Invalid favorite ID], so the body is that text followed by a line
    feed; no statement is issued and the database handle is returned as
    it was. *)
Theorem deleteFavorite_invalid_id {S : Type} (drv : sql.Driver S)
    (h : gmap string string) (r : http.Request) (db : sql.DB S)
    (e : strconv.NumError) :
  strconv.Atoi (default "" (http.Vars r !! "favoriteId")) = inl e →
  let out := deleteFavorite drv (http.fresh h) r db in
  http.Status out.1 = Some 400
  ∧ http.Written out.1 = [http.Line "Invalid favorite ID"]
  ∧ (∀ text, body text out.1 = "Invalid favorite ID" +:+ newline)
  ∧ sql.issued out.2 = sql.issued db
  ∧ out.2 = db.
Proof.
  intros Hparse out. subst out. unfold deleteFavorite. rewrite Hparse.
  repeat split; reflexivity.
Qed.

Lemma deleteFavorite_invalid_id_abc :
  let r := {| http.Method := "DELETE"; http.Vars := {[ "favoriteId" := "abc" ]};
              http.URLQuery := ∅; http.Body := json.Malformed "EOF" |} in
  let db := sql.Open {| pg.favorite := [{| pg.f_id := 1; pg.f_item_id := 2 |}];
                        pg.sneakers := []; pg.favorite_id_seq := 2;
                        pg.favorite_item_fk := false |} in
  let out := deleteFavorite pg.fixed_only (http.fresh ∅) r db in
  http.Status out.1 = Some 400
  ∧ http.Written out.1 = [http.Line "Invalid favorite ID"]
  ∧ (∀ text, body text out.1 = "Invalid favorite ID" +:+ newline)
  ∧ sql.issued out.2 = sql.issued db
  ∧ out.2 = db.
Proof.
  intros r db.
  apply (deleteFavorite_invalid_id pg.fixed_only ∅ r db strconv.ErrSyntax).
  vm_compute. reflexivity.
Defined.

(** C7. When the path segment parses as the integer [n] and the DELETE
    statement succeeds, the answer is 204 with nothing written, whatever
    result the statement reports: the count of affected rows plays no
    part.  On the reference store the statement always succeeds; for an
    [n] that no row carries it reports zero rows and leaves the relation
    as it was, and the answer is 204 all the same. *)
Theorem deleteFavorite_no_content {S : Type} (drv : sql.Driver S)
    (h : gmap string string) (r : http.Request) (db : sql.DB S)
    (n : Z) (st' : S) (res : sql.Result) :
  strconv.Atoi (default "" (http.Vars r !! "favoriteId")) = inr n →
  sql.ExecContext drv sqlDeleteFavorite [sql.Int n] (sql.store db) = (st', inr res) →
  let out := deleteFavorite drv (http.fresh h) r db in
  http.Status out.1 = Some 204
  ∧ http.Written out.1 = []
  ∧ out.2 = {| sql.store := st';
               sql.issued := sql.issued db ++ [(sqlDeleteFavorite, [sql.Int n])] |}
  ∧ ∀ (other : sql.Driver pg.Store) (st : pg.Store),
      let gone := sql.ExecContext (pg.driver other) sqlDeleteFavorite [sql.Int n] st in
      (∃ res0, gone.2 = inr res0)
      ∧ (¬ In n (map pg.f_id (pg.favorite st)) →
         gone = (st, inr {| sql.RowsAffected := 0 |})).
Proof.
  intros Hparse Hexec out. subst out. unfold deleteFavorite, sql.Exec.
  rewrite Hparse, Hexec. repeat split; try reflexivity.
  - eexists. reflexivity.
  - intros Hnone. simpl. unfold pg.deleteFavorite.
    assert (Hkept : List.filter (fun f => negb (pg.f_id f =? n)) (pg.favorite st)
                    = pg.favorite st).
    { induction (pg.favorite st) as [|f fs IH]; [reflexivity|].
      simpl in *. destruct (Z.eqb_spec (pg.f_id f) n) as [Heq|Hne].
      - exfalso. apply Hnone. left. exact Heq.
      - simpl. f_equal. apply IH. intros Hin. apply Hnone. right. exact Hin. }
    rewrite Hkept. rewrite Z.sub_diag. destruct st; reflexivity.
Qed.

Lemma deleteFavorite_no_content_absent :
  let r := {| http.Method := "DELETE"; http.Vars := {[ "favoriteId" := "42" ]};
              http.URLQuery := ∅; http.Body := json.Malformed "EOF" |} in
  let st := {| pg.favorite := [{| pg.f_id := 1; pg.f_item_id := 2 |}];
               pg.sneakers := []; pg.favorite_id_seq := 2;
               pg.favorite_item_fk := false |} in
  let out := deleteFavorite pg.fixed_only (http.fresh ∅) r (sql.Open st) in
  http.Status out.1 = Some 204
  ∧ http.Written out.1 = []
  ∧ pg.favorite (sql.store out.2) = pg.favorite st.
Proof.
  intros r st.
  pose proof (deleteFavorite_no_content pg.fixed_only ∅ r (sql.Open st) 42 st
                {| sql.RowsAffected := 0 |}) as H.
  destruct H as (Hstatus & Hwritten & Hdb & _).
  - vm_compute. reflexivity.
  - vm_compute. reflexivity.
  - split; [exact Hstatus|]. split; [exact Hwritten|].
    cbv zeta in Hdb. rewrite Hdb. reflexivity.
Defined.

(** ** Failures of the list handlers *)

(** Names the answer of the driver to the one query of a list handler,
    and replaces it by what [Hq] says it is. *)
Ltac answer_of Hq :=
  unfold sql.Query;
  let st := fresh "st" in
  let res := fresh "res" in
  destruct (sql.QueryContext _ _ _ _) as [st res];
  simpl in Hq; subst res.

Lemma scanAll_first_error {T : Type} (scan : sql.Row → error + T)
    (rows : list sql.Row) (acc : slice T) (row : sql.Row) (e0 : error) :
  In row rows → scan row = inl e0 →
  ∃ row' e, In row' rows ∧ scan row' = inl e ∧ sql.scanAll scan rows acc = inl e.
Proof.
  revert acc. induction rows as [|r0 rest IH]; intros acc Hin Hfail.
  - destruct Hin.
  - simpl. destruct (scan r0) as [e|x] eqn:Hr0.
    + exists r0, e. split; [left; reflexivity|]. split; [exact Hr0|reflexivity].
    + destruct Hin as [->|Hin]; [congruence|].
      destruct (IH (append acc x) Hin Hfail) as (row' & e & Hin' & Hrow' & Hall).
      exists row', e. split; [right; exact Hin'|]. split; assumption.
Qed.

Lemma getItems_one_query {S : Type} (drv : sql.Driver S)
    (w : http.ResponseWriter) (r : http.Request) (db : sql.DB S) :
  let sortBy := http.Get (http.URLQuery r) "sortBy" in
  let title := http.Get (http.URLQuery r) "title" in
  getItems drv w r db =
  let '(db', res) := sql.Query drv (itemsQuery sortBy title) (itemsBound title) db in
  match res with
  | inl err => (http.Error err http.StatusInternalServerError w, db')
  | inr rows =>
      match sql.scanAll Item.Scan (sql.Data rows) None with
      | inl err => (http.Error err http.StatusInternalServerError w, db')
      | inr items =>
          (http.Encode (json.Slice Item.Marshal items)
             (http.Set_ "Content-Type" "application/json" w), db')
      end
  end.
Proof.
  intros sortBy title. unfold getItems, itemsBound. fold sortBy title.
  destruct (String.eqb title ""); reflexivity.
Qed.

(** The two failures the list handlers do check.  A failed [db.Query],
    and a failed scan of any row, end the request with status 500 and
    the raw error text: the text is the only thing written, so nothing
    of the JSON answer precedes it, and the content type is the
    plain-text one of the error answer. *)
Lemma list_handlers_fail_with_500 {S : Type} (drv : sql.Driver S)
    (h : gmap string string) (r : http.Request) (db : sql.DB S) :
  let sortBy := http.Get (http.URLQuery r) "sortBy" in
  let title := http.Get (http.URLQuery r) "title" in
  let favs := sql.QueryContext drv sqlSelectFavorites [] (sql.store db) in
  let its := sql.QueryContext drv (itemsQuery sortBy title) (itemsBound title) (sql.store db) in
  (∀ err, favs.2 = inl err →
     internalServerError err (getFavorites drv (http.fresh h) r db).1)
  ∧ (∀ rows row e0, favs.2 = inr rows → In row (sql.Data rows) → Favorite.Scan row = inl e0 →
     ∃ row' err, In row' (sql.Data rows) ∧ Favorite.Scan row' = inl err
       ∧ internalServerError err (getFavorites drv (http.fresh h) r db).1)
  ∧ (∀ err, its.2 = inl err →
     internalServerError err (getItems drv (http.fresh h) r db).1)
  ∧ (∀ rows row e0, its.2 = inr rows → In row (sql.Data rows) → Item.Scan row = inl e0 →
     ∃ row' err, In row' (sql.Data rows) ∧ Item.Scan row' = inl err
       ∧ internalServerError err (getItems drv (http.fresh h) r db).1).
Proof.
  intros sortBy title favs its. subst favs its.
  assert (Herr : ∀ err, internalServerError err (http.Error err 500 (http.fresh h))).
  { intros err. rewrite Error_fresh. repeat split.
    simpl. rewrite lookup_insert_ne by done. apply lookup_insert_eq. }
  split; [|split; [|split]].
  - intros err Hq. unfold getFavorites. answer_of Hq.
    apply Herr.
  - intros rows row e0 Hq Hin Hscan. unfold getFavorites. answer_of Hq.
    destruct (scanAll_first_error Favorite.Scan _ None row e0 Hin Hscan)
      as (row' & err & Hin' & Hrow' & Hall).
    exists row', err. rewrite Hall. split; [exact Hin'|]. split; [exact Hrow'|apply Herr].
  - intros err Hq. rewrite getItems_one_query. fold sortBy title. answer_of Hq.
    apply Herr.
  - intros rows row e0 Hq Hin Hscan. rewrite getItems_one_query. fold sortBy title. answer_of Hq.
    destruct (scanAll_first_error Item.Scan _ None row e0 Hin Hscan)
      as (row' & err & Hin' & Hrow' & Hall).
    exists row', err. rewrite Hall. split; [exact Hin'|]. split; [exact Hrow'|apply Herr].
Qed.

Lemma list_handlers_fail_with_500_run :
  let r := {| http.Method := "GET"; http.Vars := ∅;
              http.URLQuery := {[ "title" := ["air"] ]};
              http.Body := json.Malformed "EOF" |} in
  let broken := [sql.Int 1; sql.Null; sql.Int 100; sql.Text "a.png";
                 sql.Bool false; sql.Null; sql.Bool false] in
  let down := answering (inl "pq: the database system is shutting down") in
  let odd := answering (inr {| sql.Data := [broken]; sql.Err := None |}) in
  internalServerError "pq: the database system is shutting down"
    (getFavorites down (http.fresh ∅) r (sql.Open ())).1
  ∧ internalServerError "pq: the database system is shutting down"
      (getItems down (http.fresh ∅) r (sql.Open ())).1
  ∧ ∃ err, Item.Scan broken = inl err
      ∧ internalServerError err (getItems odd (http.fresh ∅) r (sql.Open ())).1.
Proof.
  intros r broken down odd.
  destruct (list_handlers_fail_with_500 down ∅ r (sql.Open ())) as (Hf & _ & Hi & _).
  destruct (list_handlers_fail_with_500 odd ∅ r (sql.Open ())) as (_ & _ & _ & Hs).
  split; [apply Hf; reflexivity|]. split; [apply Hi; reflexivity|].
  destruct (Hs {| sql.Data := [broken]; sql.Err := None |} broken
              (sql.unsupported "converting NULL to string is unsupported"))
    as (row' & err & Hin & Hrow' & Hresp).
  - reflexivity.
  - left. reflexivity.
  - reflexivity.
  - destruct Hin as [<-|[]]. exists err. split; [exact Hrow'|exact Hresp].
Defined.

(** ** Empty results *)

(** C9. When the query returns no row, both list handlers answer 200
    and write the JSON document [null], which is not the empty array:
    the slice they encode was declared and never appended to. *)
Theorem list_handlers_encode_nil_as_null {S : Type} (drv : sql.Driver S)
    (h : gmap string string) (r : http.Request) (db : sql.DB S) :
  let sortBy := http.Get (http.URLQuery r) "sortBy" in
  let title := http.Get (http.URLQuery r) "title" in
  let favs := sql.QueryContext drv sqlSelectFavorites [] (sql.store db) in
  let its := sql.QueryContext drv (itemsQuery sortBy title) (itemsBound title) (sql.store db) in
  let empty (w : http.ResponseWriter) :=
    http.Status w = Some 200
    ∧ http.Written w = [http.JSON json.Null]
    ∧ http.Written w ≠ [http.JSON (json.Arr [])]
    ∧ http.Header w !! "Content-Type" = Some "application/json" in
  (∀ rows, favs.2 = inr rows → sql.Data rows = [] →
     empty (getFavorites drv (http.fresh h) r db).1)
  ∧ (∀ rows, its.2 = inr rows → sql.Data rows = [] →
     empty (getItems drv (http.fresh h) r db).1).
Proof.
  intros sortBy title favs its empty. subst favs its empty.
  split.
  - intros rows Hq Hnone. unfold getFavorites. answer_of Hq.
    rewrite Hnone. cbn [sql.scanAll fst]. rewrite Encode_fresh.
    cbn [http.Status http.Written http.Header json.Slice].
    repeat split; [discriminate | apply lookup_insert_eq].
  - intros rows Hq Hnone. rewrite getItems_one_query. fold sortBy title. answer_of Hq.
    rewrite Hnone. cbn [sql.scanAll fst]. rewrite Encode_fresh.
    cbn [http.Status http.Written http.Header json.Slice].
    repeat split; [discriminate | apply lookup_insert_eq].
Qed.

Lemma list_handlers_encode_nil_as_null_run :
  let r := {| http.Method := "GET"; http.Vars := ∅; http.URLQuery := ∅;
              http.Body := json.Malformed "EOF" |} in
  let st := {| pg.favorite := []; pg.sneakers := [];
               pg.favorite_id_seq := 1; pg.favorite_item_fk := false |} in
  http.Written (getFavorites pg.fixed_only (http.fresh ∅) r (sql.Open st)).1
    = [http.JSON json.Null]
  ∧ http.Written (getItems pg.fixed_only (http.fresh ∅) r (sql.Open st)).1
    = [http.JSON json.Null].
Proof.
  intros r st.
  destruct (list_handlers_encode_nil_as_null pg.fixed_only ∅ r (sql.Open st)) as [Hf Hi].
  split.
  - apply (Hf (pg.rows [])); reflexivity.
  - apply (Hi (pg.rows [])); reflexivity.
Defined.

(** ** A body without [item_id] *)

Lemma intMembers_no_match (name : string) (members : list (string * json.Value))
    (field : Z) (saved : option error) :
  Forall (fun kv => json.matches name kv.1 = false) members →
  json.intMembers name members field saved = (saved, field).
Proof.
  induction 1 as [|[key v] rest Hkey _ IH]; simpl; [reflexivity|].
  simpl in Hkey. rewrite Hkey. exact IH.
Qed.

(** C10. A body that is a JSON object with no member for [item_id] (the
    empty object among them) decodes, with the identifier left at 0.  The
    handler does not answer 400: it issues the INSERT with the value 0,
    and answers 201 if the store accepts the statement (500 with the
    store's error text if it does not). *)
Theorem postFavorite_missing_item_id {S : Type} (drv : sql.Driver S)
    (h : gmap string string) (r : http.Request) (db : sql.DB S)
    (members : list (string * json.Value)) :
  http.Body r = json.Document (json.Obj members) →
  Forall (fun kv => json.matches "item_id" kv.1 = false) members →
  let out := postFavorite drv (http.fresh h) r db in
  let done := sql.ExecContext drv sqlInsertFavorite [sql.Int 0] (sql.store db) in
  Data.Decode (http.Body r) = inr {| Data.ItemID := 0 |}
  ∧ http.Status out.1 ≠ Some 400
  ∧ sql.issued out.2 = sql.issued db ++ [(sqlInsertFavorite, [sql.Int 0])]
  ∧ match done.2 with
    | inr _ => http.Status out.1 = Some 201 ∧ http.Written out.1 = []
    | inl err => http.Status out.1 = Some 500 ∧ http.Written out.1 = [http.Line err]
    end.
Proof.
  intros Hbody Hnone out done.
  assert (Hdec : Data.Decode (http.Body r) = inr {| Data.ItemID := 0 |}).
  { rewrite Hbody. simpl. rewrite intMembers_no_match by exact Hnone. reflexivity. }
  subst out done. unfold postFavorite, sql.Exec. rewrite Hdec. simpl.
  destruct (sql.ExecContext drv _ _ (sql.store db)) as [st [err|res]]; simpl;
    repeat split; try reflexivity; discriminate.
Qed.

Lemma postFavorite_missing_item_id_empty_object :
  let r := {| http.Method := "POST"; http.Vars := ∅; http.URLQuery := ∅;
              http.Body := json.Document (json.Obj []) |} in
  let st := {| pg.favorite := []; pg.sneakers := [];
               pg.favorite_id_seq := 1; pg.favorite_item_fk := false |} in
  let out := postFavorite pg.fixed_only (http.fresh ∅) r (sql.Open st) in
  http.Status out.1 = Some 201
  ∧ pg.favorite (sql.store out.2) = [{| pg.f_id := 1; pg.f_item_id := 0 |}].
Proof.
  intros r st.
  destruct (postFavorite_missing_item_id pg.fixed_only ∅ r (sql.Open st) [])
    as (_ & _ & _ & Hdone).
  - reflexivity.
  - constructor.
  - split; [apply Hdone | reflexivity].
Defined.

(** ** Scanning what the reference store returns *)

Lemma elems_append {T : Type} (s : slice T) (x : T) :
  elems (append s x) = elems s ++ [x].
Proof. destruct s; reflexivity. Qed.

Lemma scanAll_map {A T : Type} (scan : sql.Row → error + T)
    (row : A → sql.Row) (val : A → T) (xs : list A) (acc : slice T) :
  (∀ x, scan (row x) = inr (val x)) →
  ∃ s, sql.scanAll scan (map row xs) acc = inr s
       ∧ elems s = elems acc ++ map val xs.
Proof.
  intros Hscan. revert acc. induction xs as [|x xs IH]; intros acc; simpl.
  - exists acc. split; [reflexivity|]. symmetry. apply app_nil_r.
  - rewrite Hscan. destruct (IH (append acc (val x))) as (s & Hs & Hel).
    exists s. split; [exact Hs|].
    rewrite Hel, elems_append, <- app_assoc. reflexivity.
Qed.

Lemma Favorite_Scan_joined (fs : pg.favorite_row * pg.sneakers_row) :
  Favorite.Scan (pg.joined fs.1 fs.2) = inr (favorite_of fs).
Proof.
  destruct fs as [f s]. unfold favorite_of, pg.joined. simpl.
  destruct (pg.s_favoriteId s); reflexivity.
Qed.

Lemma Item_Scan_star (s : pg.sneakers_row) :
  Item.Scan (pg.star s) = inr (item_of s).
Proof.
  unfold item_of, pg.star. simpl. destruct (pg.s_favoriteId s); reflexivity.
Qed.

(** The slice the loop ends with when every row scans: nil when there
    was no row. *)
Lemma scanAll_slice {A T : Type} (scan : sql.Row → error + T)
    (row : A → sql.Row) (val : A → T) (xs : list A) (acc : slice T) :
  (∀ x, scan (row x) = inr (val x)) →
  sql.scanAll scan (map row xs) acc
  = inr (match xs with
         | [] => acc
         | _ :: _ => Some (elems acc ++ map val xs)
         end).
Proof.
  intros Hscan. revert acc. induction xs as [|x xs IH]; intros acc; [reflexivity|].
  simpl. rewrite Hscan, IH. f_equal. rewrite elems_append.
  destruct xs as [|y xs].
  - destruct acc; reflexivity.
  - rewrite <- app_assoc. reflexivity.
Qed.

Lemma Item_Marshal_row (s : pg.sneakers_row) : Item.Marshal (item_of s) = itemJSON s.
Proof. reflexivity. Qed.

Lemma Favorite_Marshal_row (fs : pg.favorite_row * pg.sneakers_row) :
  Favorite.Marshal (favorite_of fs) = favoriteJSON fs.
Proof. reflexivity. Qed.

Lemma Slice_rows {A T : Type} (enc : T → json.Value) (val : A → T)
    (doc : A → json.Value) (xs : list A) :
  (∀ x, enc (val x) = doc x) →
  json.Slice enc (match xs with
                  | [] => None
                  | _ :: _ => Some (map val xs)
                  end)
  = listJSON (map doc xs).
Proof.
  intros Henc. destruct xs as [|x xs]; [reflexivity|].
  unfold json.Slice, listJSON. rewrite map_map. simpl. rewrite Henc.
  f_equal. f_equal. apply map_ext. exact Henc.
Qed.

(** A list handler that is given rows of the store answers 200 with the
    list of their entries; the error the result set carries plays no
    part. *)
Lemma getItems_listing {S : Type} (drv : sql.Driver S) (h : gmap string string)
    (r : http.Request) (db : sql.DB S) (st' : S) (l : list pg.sneakers_row)
    (e : option error) :
  let sortBy := http.Get (http.URLQuery r) "sortBy" in
  let title := http.Get (http.URLQuery r) "title" in
  sql.QueryContext drv (itemsQuery sortBy title) (itemsBound title) (sql.store db)
  = (st', inr {| sql.Data := map pg.star l; sql.Err := e |}) →
  getItems drv (http.fresh h) r db
  = ({| http.Header := <["Content-Type" := "application/json"]> h;
        http.Status := Some 200;
        http.Written := [http.JSON (listJSON (map itemJSON l))] |},
     {| sql.store := st';
        sql.issued := sql.issued db ++ [(itemsQuery sortBy title, itemsBound title)] |}).
Proof.
  intros sortBy title Hq. rewrite getItems_one_query. fold sortBy title.
  unfold sql.Query. rewrite Hq. cbn [sql.Data].
  rewrite (scanAll_slice Item.Scan pg.star item_of l None Item_Scan_star).
  cbn [elems app]. rewrite (Slice_rows Item.Marshal item_of itemJSON l Item_Marshal_row).
  rewrite Encode_fresh. reflexivity.
Qed.

Lemma getFavorites_listing {S : Type} (drv : sql.Driver S) (h : gmap string string)
    (r : http.Request) (db : sql.DB S) (st' : S)
    (l : list (pg.favorite_row * pg.sneakers_row)) (e : option error) :
  sql.QueryContext drv sqlSelectFavorites [] (sql.store db)
  = (st', inr {| sql.Data := map (fun fs => pg.joined fs.1 fs.2) l; sql.Err := e |}) →
  getFavorites drv (http.fresh h) r db
  = ({| http.Header := <["Content-Type" := "application/json"]> h;
        http.Status := Some 200;
        http.Written := [http.JSON (listJSON (map favoriteJSON l))] |},
     {| sql.store := st';
        sql.issued := sql.issued db ++ [(sqlSelectFavorites, [])] |}).
Proof.
  intros Hq. unfold getFavorites, sql.Query. rewrite Hq. cbn [sql.Data].
  rewrite (scanAll_slice Favorite.Scan (fun fs => pg.joined fs.1 fs.2) favorite_of l None
             Favorite_Scan_joined).
  cbn [elems app].
  rewrite (Slice_rows Favorite.Marshal favorite_of favoriteJSON l Favorite_Marshal_row).
  rewrite Encode_fresh. reflexivity.
Qed.

(** GET /favorites on the reference store: the entries of the join, in
    its order; the store is left as it was. *)
Lemma getFavorites_pg_listing (other : sql.Driver pg.Store) (h : gmap string string)
    (r : http.Request) (db : sql.DB pg.Store) :
  getFavorites (pg.driver other) (http.fresh h) r db
  = ({| http.Header := <["Content-Type" := "application/json"]> h;
        http.Status := Some 200;
        http.Written := [http.JSON (listJSON (map favoriteJSON (pg.innerJoin (sql.store db))))] |},
     {| sql.store := sql.store db;
        sql.issued := sql.issued db ++ [(sqlSelectFavorites, [])] |}).
Proof. apply (getFavorites_listing _ h r db (sql.store db) _ None). reflexivity. Qed.

(** ** A query that fails while its rows are read *)

(** C8, which the code does not meet.  A query that fails while its
    rows are read ends the loop [for rows.Next()] as the end of the
    result set does, and leaves its error in [rows.Err()], which neither
    list handler reads.  So whatever the error, and whatever rows were
    delivered before it, both handlers answer 200 with the list of
    those rows ([null] when there was none): the answer is not the 500
    of a failure, and the error text is not written. *)
Theorem list_handlers_answer_200_on_failed_iteration (h : gmap string string)
    (r : http.Request) (delivered : list (pg.favorite_row * pg.sneakers_row))
    (read : list pg.sneakers_row) (err : error) :
  let joined := map (fun fs => pg.joined fs.1 fs.2) delivered in
  let favorites :=
    getFavorites (answering (inr {| sql.Data := joined; sql.Err := Some err |}))
      (http.fresh h) r (sql.Open ()) in
  let items :=
    getItems (answering (inr {| sql.Data := map pg.star read; sql.Err := Some err |}))
      (http.fresh h) r (sql.Open ()) in
  http.Status favorites.1 = Some 200
  ∧ http.Written favorites.1 = [http.JSON (listJSON (map favoriteJSON delivered))]
  ∧ http.Status items.1 = Some 200
  ∧ http.Written items.1 = [http.JSON (listJSON (map itemJSON read))]
  ∧ ¬ internalServerError err favorites.1
  ∧ ¬ internalServerError err items.1.
Proof.
  intros joined favorites items. subst favorites items joined.
  rewrite (getFavorites_listing _ h r (sql.Open ()) () delivered (Some err)) by reflexivity.
  rewrite (getItems_listing _ h r (sql.Open ()) () read (Some err)) by reflexivity.
  cbn [fst http.Status http.Written].
  repeat split; try (intros (H & _); discriminate H).
Qed.

(** One row of the catalog is read, then the statement is cancelled:
    the answer is 200 with that row, and no trace of the error. *)
Lemma list_handlers_answer_200_on_failed_iteration_run :
  let air := {| pg.s_id := 1; pg.s_title := "Air Max"; pg.s_price := 100;
                pg.s_imageUrl := "air.png"; pg.s_isFavorite := false;
                pg.s_favoriteId := None; pg.s_isAdded := false |} in
  let r := {| http.Method := "GET"; http.Vars := ∅; http.URLQuery := ∅;
              http.Body := json.Malformed "EOF" |} in
  let err := "pq: canceling statement due to statement timeout" in
  let cut := answering (inr {| sql.Data := [pg.star air]; sql.Err := Some err |}) in
  let items := getItems cut (http.fresh ∅) r (sql.Open ()) in
  http.Status items.1 = Some 200
  ∧ http.Written items.1
    = [http.JSON
         (json.Arr
            [json.Obj [("id", json.Num 1); ("title", json.Str "Air Max");
                       ("price", json.Num 100); ("image_url", json.Str "air.png");
                       ("is_favorite", json.Bool false); ("favorite_id", json.Null);
                       ("is_added", json.Bool false)]])]
  ∧ ¬ internalServerError err items.1.
Proof.
  intros air r err cut items.
  destruct (list_handlers_answer_200_on_failed_iteration ∅ r [] [air] err)
    as (_ & _ & Hstatus & Hwritten & _ & Hnot).
  split; [exact Hstatus|]. split; [exact Hwritten|exact Hnot].
Defined.

(** GET /favorites on the reference store: always 200, and the
    elements encoded are the rows of the join, in its order. *)
Lemma getFavorites_pg (other : sql.Driver pg.Store) (h : gmap string string)
    (r : http.Request) (db : sql.DB pg.Store) :
  let out := getFavorites (pg.driver other) (http.fresh h) r db in
  ∃ favorites : slice Favorite.t,
    http.Status out.1 = Some 200
    ∧ http.Written out.1 = [http.JSON (json.Slice Favorite.Marshal favorites)]
    ∧ elems favorites = map favorite_of (pg.innerJoin (sql.store db))
    ∧ sql.store out.2 = sql.store db.
Proof.
  intros out. subst out. unfold getFavorites, sql.Query. simpl.
  unfold pg.selectFavorites.
  destruct (scanAll_map Favorite.Scan (fun fs => pg.joined fs.1 fs.2) favorite_of
              (pg.innerJoin (sql.store db)) None Favorite_Scan_joined)
    as (s & Hs & Hel).
  rewrite Hs. exists s. repeat split. exact Hel.
Qed.

(** ** POST /favorites, then GET /favorites *)

Lemma filter_key_unique (rows : list pg.sneakers_row) (i : Z) :
  NoDup (map pg.s_id rows) → In i (map pg.s_id rows) →
  ∃ s, List.filter (fun s => i =? pg.s_id s) rows = [s] ∧ pg.s_id s = i.
Proof.
  induction rows as [|s0 rows IH]; intros Hkey Hin; [destruct Hin|].
  simpl in Hkey, Hin. apply NoDup_cons in Hkey as [Hfresh Hkey]. simpl.
  destruct (Z.eqb_spec i (pg.s_id s0)) as [Heq|Hne].
  - exists s0. split; [|symmetry; exact Heq]. f_equal.
    assert (Hnone : ∀ l, ¬ In i (map pg.s_id l) → List.filter (fun s => i =? pg.s_id s) l = []).
    { induction l as [|x l IHl]; intros Hx; [reflexivity|]. simpl in *.
      destruct (Z.eqb_spec i (pg.s_id x)) as [Hix|Hix].
      - exfalso. apply Hx. left. symmetry. exact Hix.
      - apply IHl. intros Hl. apply Hx. right. exact Hl. }
    apply Hnone. rewrite Heq. rewrite <- list_elem_of_In. exact Hfresh.
  - destruct Hin as [Hin|Hin]; [exfalso; apply Hne; symmetry; exact Hin|].
    apply IH; assumption.
Qed.

Lemma references_In (st : pg.Store) (i : Z) :
  In i (map pg.s_id (pg.sneakers st)) → pg.references st i = true.
Proof.
  intros Hin. unfold pg.references. apply existsb_exists.
  apply in_map_iff in Hin as (s & Hs & Hin). exists s. split; [exact Hin|].
  apply Z.eqb_eq. exact Hs.
Qed.

Lemma entries_listJSON (l : list json.Value) : entries (listJSON l) = l.
Proof. destruct l; reflexivity. Qed.

Lemma innerJoin_favorite (st : pg.Store) (fs : pg.favorite_row * pg.sneakers_row) :
  In fs (pg.innerJoin st) → In fs.1 (pg.favorite st).
Proof.
  unfold pg.innerJoin. intros H. apply in_flat_map in H as (f & Hf & H).
  apply in_map_iff in H as (s & <- & _). exact Hf.
Qed.

(** While the sequence is ahead of the table, no entry listed carries
    an identifier that is still to be drawn. *)
Lemma listed_below_sequence (st : pg.Store) (k : Z) :
  consistent st → pg.favorite_id_seq st <= k →
  Forall (fun e => hasId k e = false) (map favoriteJSON (pg.innerJoin st)).
Proof.
  intros (_ & Hbelow & _) Hk. apply List.Forall_forall. intros e He.
  apply in_map_iff in He as (fs & <- & Hfs).
  apply innerJoin_favorite in Hfs.
  rewrite Forall_forall in Hbelow. rewrite <- list_elem_of_In in Hfs.
  specialize (Hbelow _ Hfs). unfold hasId, favoriteJSON. simpl.
  apply Z.eqb_neq. lia.
Qed.

(** C1. On the reference store, with the sequence of [favorite.id]
    ahead of the table, and for an identifier [i] that is the key of a
    sneaker: listing the favorites, posting [{"item_id": i}] and listing
    again gives 200, 201 and 200.  The first list holds the entries of
    the join.  The second list is the first one with exactly one more
    entry: its [item_id] is [i], and its [id] is the one drawn from the
    sequence, which no entry of the first list carries. *)
Theorem post_then_get_adds_one_favorite (other : sql.Driver pg.Store)
    (h1 h2 h3 : gmap string string) (r1 r2 r3 : http.Request)
    (db : sql.DB pg.Store) (i : Z) :
  consistent (sql.store db) →
  In i (map pg.s_id (pg.sneakers (sql.store db))) →
  is_int i = true →
  http.Body r2 = json.Document (json.Obj [("item_id", json.Num i)]) →
  let drv := pg.driver other in
  let before := getFavorites drv (http.fresh h1) r1 db in
  let posted := postFavorite drv (http.fresh h2) r2 before.2 in
  let after := getFavorites drv (http.fresh h3) r3 posted.2 in
  let drawn := pg.favorite_id_seq (sql.store db) in
  ∃ v0 v1 e : json.Value,
    http.Status before.1 = Some 200
    ∧ http.Written before.1 = [http.JSON v0]
    ∧ http.Status posted.1 = Some 201
    ∧ http.Written posted.1 = []
    ∧ http.Status after.1 = Some 200
    ∧ http.Written after.1 = [http.JSON v1]
    ∧ v0 = listJSON (entries v0)
    ∧ v1 = json.Arr (entries v1)
    ∧ entries v0 = map favoriteJSON (pg.innerJoin (sql.store db))
    ∧ Permutation (entries v1) (e :: entries v0)
    ∧ member "item_id" e = Some (json.Num i)
    ∧ member "id" e = Some (json.Num drawn)
    ∧ Forall (fun e0 => hasId drawn e0 = false) (entries v0).
Proof.
  intros Hcons Hin Hint Hbody drv before posted after drawn.
  pose proof (getFavorites_pg_listing other h1 r1 db) as Hbefore. fold drv before in Hbefore.
  assert (Hkey : pg.sneakers_key (sql.store db)) by apply Hcons.
  destruct (filter_key_unique _ i Hkey Hin) as (s & Hfilter & Hs).
  set (e := ({| pg.f_id := drawn; pg.f_item_id := i |}, s)).
  assert (Hpost : http.Status posted.1 = Some 201 ∧ http.Written posted.1 = []
                  ∧ pg.innerJoin (sql.store posted.2) = pg.innerJoin (sql.store db) ++ [e]).
  { subst posted. rewrite Hbefore. unfold postFavorite, sql.Exec. rewrite Hbody. simpl.
    rewrite Hint. simpl. unfold pg.insertFavorite.
    rewrite (references_In _ _ Hin), andb_false_r. simpl.
    repeat split. unfold pg.innerJoin. simpl.
    rewrite flat_map_app. simpl. rewrite Hfilter. simpl. reflexivity. }
  destruct Hpost as (Hs1 & Hw1 & Hjoin).
  pose proof (getFavorites_pg_listing other h3 r3 posted.2) as Hafter.
  fold drv after in Hafter. rewrite Hjoin, map_app in Hafter. simpl map in Hafter.
  exists (listJSON (map favoriteJSON (pg.innerJoin (sql.store db)))),
         (json.Arr (map favoriteJSON (pg.innerJoin (sql.store db)) ++ [favoriteJSON e])),
         (favoriteJSON e).
  rewrite Hbefore, Hafter, entries_listJSON. cbn [fst http.Status http.Written entries].
  split; [reflexivity|]. split; [reflexivity|]. split; [exact Hs1|]. split; [exact Hw1|].
  split; [reflexivity|]. split.
  { destruct (map favoriteJSON (pg.innerJoin (sql.store db))); reflexivity. }
  split; [reflexivity|]. split; [reflexivity|]. split; [reflexivity|].
  split; [symmetry; apply Permutation_cons_append|].
  split; [reflexivity|]. split; [reflexivity|].
  apply listed_below_sequence; [exact Hcons|apply Z.le_refl].
Qed.

Lemma post_then_get_adds_one_favorite_run :
  let air := {| pg.s_id := 1; pg.s_title := "Air Max"; pg.s_price := 100;
                pg.s_imageUrl := "air.png"; pg.s_isFavorite := false;
                pg.s_favoriteId := None; pg.s_isAdded := false |} in
  let runner := {| pg.s_id := 2; pg.s_title := "Classic Runner"; pg.s_price := 80;
                   pg.s_imageUrl := "runner.png"; pg.s_isFavorite := false;
                   pg.s_favoriteId := None; pg.s_isAdded := false |} in
  let db := sql.Open {| pg.favorite := [{| pg.f_id := 1; pg.f_item_id := 1 |}];
                        pg.sneakers := [air; runner];
                        pg.favorite_id_seq := 2; pg.favorite_item_fk := true |} in
  let get := {| http.Method := "GET"; http.Vars := ∅; http.URLQuery := ∅;
                http.Body := json.Malformed "EOF" |} in
  let post := {| http.Method := "POST"; http.Vars := ∅; http.URLQuery := ∅;
                 http.Body := json.Document (json.Obj [("item_id", json.Num 2)]) |} in
  let before := getFavorites pg.fixed_only (http.fresh ∅) get db in
  let posted := postFavorite pg.fixed_only (http.fresh ∅) post before.2 in
  let after := getFavorites pg.fixed_only (http.fresh ∅) get posted.2 in
  let first := json.Obj [("id", json.Num 1); ("item_id", json.Num 1);
                         ("title", json.Str "Air Max"); ("price", json.Num 100);
                         ("image_url", json.Str "air.png");
                         ("is_favorite", json.Bool false); ("favorite_id", json.Null);
                         ("is_added", json.Bool false)] in
  let second := json.Obj [("id", json.Num 2); ("item_id", json.Num 2);
                          ("title", json.Str "Classic Runner"); ("price", json.Num 80);
                          ("image_url", json.Str "runner.png");
                          ("is_favorite", json.Bool false); ("favorite_id", json.Null);
                          ("is_added", json.Bool false)] in
  (∃ v0 v1 e : json.Value,
     http.Written before.1 = [http.JSON v0]
     ∧ http.Written after.1 = [http.JSON v1]
     ∧ Permutation (entries v1) (e :: entries v0)
     ∧ member "item_id" e = Some (json.Num 2))
  ∧ http.Written before.1 = [http.JSON (json.Arr [first])]
  ∧ http.Status posted.1 = Some 201
  ∧ http.Written after.1 = [http.JSON (json.Arr [first; second])].
Proof.
  intros air runner db get post before posted after first second.
  split; [|vm_compute; repeat split; reflexivity].
  destruct (post_then_get_adds_one_favorite pg.refusing ∅ ∅ ∅ get post get db 2)
    as (v0 & v1 & e & _ & Hw0 & _ & _ & _ & Hw1 & _ & _ & _ & Hperm & Hitem & _).
  - split; [|split].
    + simpl. apply NoDup_singleton.
    + simpl. repeat constructor.
    + unfold pg.sneakers_key. simpl.
      apply NoDup_cons. split; [rewrite list_elem_of_In; simpl; intros [H|[]]; discriminate H|].
      apply NoDup_singleton.
  - simpl. right. left. reflexivity.
  - reflexivity.
  - reflexivity.
  - exists v0, v1, e. repeat split; assumption.
Defined.

(** ** LIKE patterns *)

















(** *** What [contains] decides *)




(** ** GET /items with a title *)


Lemma insertBy_Permutation (key : pg.sneakers_row → Z) (s : pg.sneakers_row)
    (l : list pg.sneakers_row) :
  Permutation (pg.insertBy key s l) (s :: l).
Proof.
  induction l as [|x l IH]; simpl; [reflexivity|].
  destruct (key s <=? key x); [reflexivity|].
  rewrite IH. apply perm_swap.
Qed.

(** ORDER BY keeps the rows and changes their order only. *)
Lemma orderBy_Permutation (key : pg.sneakers_row → Z) (l : list pg.sneakers_row) :
  Permutation (pg.orderBy key l) l.
Proof.
  induction l as [|s l IH]; simpl; [reflexivity|].
  unfold pg.orderBy in *. simpl. rewrite insertBy_Permutation, IH. reflexivity.
Qed.




(** ** The models at work *)

Example Atoi_decimal : strconv.Atoi "42" = inr 42.
Proof. reflexivity. Qed.

Example Atoi_signed :
  strconv.Atoi "-12" = inr (-12) ∧ strconv.Atoi "+7" = inr 7.
Proof. split; reflexivity. Qed.

Example Atoi_not_a_number :
  strconv.Atoi "abc" = inl strconv.ErrSyntax
  ∧ strconv.Atoi "" = inl strconv.ErrSyntax
  ∧ strconv.Atoi "-" = inl strconv.ErrSyntax
  ∧ strconv.Atoi "4 2" = inl strconv.ErrSyntax
  ∧ strconv.Atoi "1_000" = inl strconv.ErrSyntax.
Proof. repeat split; reflexivity. Qed.

Example Atoi_limits :
  strconv.Atoi "9223372036854775807" = inr int_max
  ∧ strconv.Atoi "-9223372036854775808" = inr int_min
  ∧ strconv.Atoi "9223372036854775808" = inl strconv.ErrRange
  ∧ strconv.Atoi "-9223372036854775809" = inl strconv.ErrRange.
Proof. repeat split; reflexivity. Qed.

Example Decode_item_id :
  Data.Decode (json.Document (json.Obj [("item_id", json.Num 3)]))
  = inr {| Data.ItemID := 3 |}.
Proof. reflexivity. Qed.

Example Decode_not_a_number :
  ∃ err, Data.Decode (json.Document (json.Obj [("item_id", json.Str "not-a-number")]))
         = inl err.
Proof. eexists. reflexivity. Qed.

Example Decode_fraction :
  ∃ err, Data.Decode (json.Document (json.Obj [("item_id", json.Frac "1.5")])) = inl err.
Proof. eexists. reflexivity. Qed.

Example Decode_array :
  ∃ err, Data.Decode (json.Document (json.Arr [json.Num 1])) = inl err.
Proof. eexists. reflexivity. Qed.

Example Decode_other_letter_case :
  Data.Decode (json.Document (json.Obj [("Item_ID", json.Num 3)]))
  = inr {| Data.ItemID := 3 |}.
Proof. reflexivity. Qed.

Example ILIKE_air :
  pg.ILIKE "Air Max" "%air%" = true ∧ pg.ILIKE "Classic Runner" "%air%" = false.
Proof. split; reflexivity. Qed.

Example ILIKE_underscore : pg.ILIKE "Air Max" "%a_r%" = true.
Proof. reflexivity. Qed.

Example ILIKE_escaped_percent :
  pg.ILIKE "Air Max" "%\%%" = false ∧ pg.ILIKE "50% off" "%\%%" = true.
Proof. split; reflexivity. Qed.

(** [_] stands for one character, of one byte or of more: the last
    letter of the title here is U+00E9, two bytes in UTF-8. *)
Example ILIKE_underscore_character :
  let title := "Caf" +:+ String "195" (String "169" "") in
  pg.ILIKE title "caf_" = true ∧ pg.ILIKE title "caf__" = false
  ∧ pg.ILIKE title "%_" = true ∧ String.length title = 5%nat.
Proof. repeat split; reflexivity. Qed.

(** The letters A to Z are folded, and no other character: U+00C9 and
    U+00E9 stay apart. *)
Example ILIKE_folds_ascii_only :
  pg.ILIKE "AIR" "air" = true
  ∧ pg.ILIKE (String "195" (String "137" "")) (String "195" (String "169" "")) = false.
Proof. split; reflexivity. Qed.

Example validText_examples :
  pg.validText "%air%" = true
  ∧ pg.validText ("Caf" +:+ String "195" (String "169" "")) = true
  ∧ pg.validText (String "000" "") = false
  ∧ pg.validText (String "195" "") = false
  ∧ pg.validText (String "169" "") = false
  ∧ pg.validText (String "237" (String "160" (String "128" ""))) = false.
Proof. repeat split; reflexivity. Qed.

Example orderBy_price :
  let row := fun id price =>
    {| pg.s_id := id; pg.s_title := "t"; pg.s_price := price; pg.s_imageUrl := "u";
       pg.s_isFavorite := false; pg.s_favoriteId := None; pg.s_isAdded := false |} in
  map pg.s_id (pg.orderBy pg.s_price [row 1 100; row 2 80; row 3 90; row 4 80])
  = [2; 4; 3; 1].
Proof. reflexivity. Qed.

(** The error that may have cut a result set short ([Rows.Err]) is never
    read: both list handlers answer from the rows they were given. *)
Remark list_handlers_do_not_read_Rows_Err (data : list sql.Row) (e1 e2 : option error)
    (h : gmap string string) (r : http.Request) :
  let rows1 := {| sql.Data := data; sql.Err := e1 |} in
  let rows2 := {| sql.Data := data; sql.Err := e2 |} in
  getFavorites (answering (inr rows1)) (http.fresh h) r (sql.Open ())
  = getFavorites (answering (inr rows2)) (http.fresh h) r (sql.Open ())
  ∧ getItems (answering (inr rows1)) (http.fresh h) r (sql.Open ())
    = getItems (answering (inr rows2)) (http.fresh h) r (sql.Open ()).
Proof.
  intros rows1 rows2. split.
  - reflexivity.
  - rewrite !getItems_one_query. reflexivity.
Qed.

(** * Further properties of the handlers *)

(** ** The shape of every answer *)

Lemma getFavorites_answer {S : Type} (drv : sql.Driver S)
    (h : gmap string string) (r : http.Request) (db : sql.DB S) :
  let out := getFavorites drv (http.fresh h) r db in
  (∃ err, out.1 = http.Error err 500 (http.fresh h))
  ∨ (∃ v, out.1 = http.Encode v (http.Set_ "Content-Type" "application/json" (http.fresh h))).
Proof.
  intros out. subst out. unfold getFavorites, sql.Query.
  destruct (sql.QueryContext drv _ _ _) as [st [err|rows]]; [left; eauto|].
  destruct (sql.scanAll Favorite.Scan (sql.Data rows) None) as [err|favorites];
    [left; eauto | right; eauto].
Qed.

Lemma getItems_answer {S : Type} (drv : sql.Driver S)
    (h : gmap string string) (r : http.Request) (db : sql.DB S) :
  let out := getItems drv (http.fresh h) r db in
  (∃ err, out.1 = http.Error err 500 (http.fresh h))
  ∨ (∃ v, out.1 = http.Encode v (http.Set_ "Content-Type" "application/json" (http.fresh h))).
Proof.
  intros out. subst out. rewrite getItems_one_query. unfold sql.Query.
  destruct (sql.QueryContext drv _ _ _) as [st [err|rows]]; [left; eauto|].
  destruct (sql.scanAll Item.Scan (sql.Data rows) None) as [err|items];
    [left; eauto | right; eauto].
Qed.

Lemma postFavorite_answer {S : Type} (drv : sql.Driver S)
    (h : gmap string string) (r : http.Request) (db : sql.DB S) :
  let out := postFavorite drv (http.fresh h) r db in
  (∃ err, out.1 = http.Error err 400 (http.fresh h))
  ∨ (∃ err, out.1 = http.Error err 500 (http.fresh h))
  ∨ out.1 = http.WriteHeader 201 (http.fresh h).
Proof.
  intros out. subst out. unfold postFavorite, sql.Exec.
  destruct (Data.Decode (http.Body r)) as [err|data]; [left; eauto|].
  destruct (sql.ExecContext drv _ _ _) as [st [err|res]];
    [right; left; eauto | right; right; reflexivity].
Qed.

Lemma deleteFavorite_answer {S : Type} (drv : sql.Driver S)
    (h : gmap string string) (r : http.Request) (db : sql.DB S) :
  let out := deleteFavorite drv (http.fresh h) r db in
  out.1 = http.Error "Invalid favorite ID" 400 (http.fresh h)
  ∨ (∃ err, out.1 = http.Error err 500 (http.fresh h))
  ∨ out.1 = http.WriteHeader 204 (http.fresh h).
Proof.
  intros out. subst out. unfold deleteFavorite, sql.Exec.
  destruct (strconv.Atoi _) as [e|n]; [left; reflexivity|].
  destruct (sql.ExecContext drv _ _ _) as [st [err|res]];
    [right; left; eauto | right; right; reflexivity].
Qed.

(** X1. Whatever the database does, an answer of a handler is one of
    few: the list handlers answer 200 with one JSON document or 500 with
    one line of error text; POST answers 201 with nothing written, or 400
    or 500 with one line; DELETE answers 204 with nothing written, 400
    with the fixed line, or 500 with one line.  No other status occurs,
    and nothing is ever written beside the one document or line. *)
Theorem handlers_answer_once {S : Type} (drv : sql.Driver S)
    (h : gmap string string) (r : http.Request) (db : sql.DB S) :
  let list (w : http.ResponseWriter) :=
    (http.Status w = Some 200 ∧ ∃ v, http.Written w = [http.JSON v])
    ∨ (http.Status w = Some 500 ∧ ∃ err, http.Written w = [http.Line err]) in
  let change (ok : Z) (w : http.ResponseWriter) :=
    (http.Status w = Some ok ∧ http.Written w = [])
    ∨ (http.Status w = Some 400 ∧ ∃ err, http.Written w = [http.Line err])
    ∨ (http.Status w = Some 500 ∧ ∃ err, http.Written w = [http.Line err]) in
  list (getFavorites drv (http.fresh h) r db).1
  ∧ list (getItems drv (http.fresh h) r db).1
  ∧ change 201 (postFavorite drv (http.fresh h) r db).1
  ∧ change 204 (deleteFavorite drv (http.fresh h) r db).1.
Proof.
  intros list change. subst list change. cbv beta.
  split; [|split; [|split]].
  - destruct (getFavorites_answer drv h r db) as [[err ->]|[v ->]].
    + right. rewrite Error_fresh. eauto.
    + left. rewrite Encode_fresh. eauto.
  - destruct (getItems_answer drv h r db) as [[err ->]|[v ->]].
    + right. rewrite Error_fresh. eauto.
    + left. rewrite Encode_fresh. eauto.
  - destruct (postFavorite_answer drv h r db) as [[err ->]|[[err ->]| ->]].
    + right. left. rewrite Error_fresh. eauto.
    + right. right. rewrite Error_fresh. eauto.
    + left. rewrite WriteHeader_fresh. eauto.
  - destruct (deleteFavorite_answer drv h r db) as [->|[[err ->]| ->]].
    + right. left. rewrite Error_fresh. eauto.
    + right. right. rewrite Error_fresh. eauto.
    + left. rewrite WriteHeader_fresh. eauto.
Qed.

(** ** The statements that reach the database *)

Lemma ParseUint_grows (s : string) (n m : Z) :
  strconv.ParseUint s n = inr m → 0 ≤ n → n ≤ m.
Proof.
  revert n. induction s as [|c s IH]; intros n Hparse Hn; simpl in Hparse.
  - injection Hparse as ->. lia.
  - unfold strconv.digit in Hparse.
    destruct ((48 <=? Z.of_nat (nat_of_ascii c)) && (Z.of_nat (nat_of_ascii c) <=? 57))
      eqn:Hdigit; [|discriminate].
    apply andb_true_iff in Hdigit as [Hlo Hhi]. apply Z.leb_le in Hlo, Hhi.
    destruct (2 ^ 64 - 1 <? n * 10 + (Z.of_nat (nat_of_ascii c) - 48)); [discriminate|].
    apply IH in Hparse; lia.
Qed.

(** What [Atoi] returns is an [int]. *)
Lemma Atoi_is_int (s : string) (n : Z) :
  strconv.Atoi s = inr n → is_int n = true.
Proof.
  unfold strconv.Atoi, is_int, int_min, int_max.
  destruct s as [|c rest]; [discriminate|].
  cbv zeta.
  destruct (String.eqb _ ""); [discriminate|].
  destruct (strconv.ParseUint _ 0) as [e|un] eqn:Hparse; [discriminate|].
  apply ParseUint_grows in Hparse; [|lia].
  destruct (Ascii.eqb c "-").
  - destruct (Z.ltb_spec (2 ^ 63) un) as [Hbig|Hfits]; [discriminate|].
    intros Hres. injection Hres as <-. apply andb_true_iff. split; apply Z.leb_le; lia.
  - destruct (Z.leb_spec (2 ^ 63) un) as [Hbig|Hfits]; [discriminate|].
    intros Hres. injection Hres as <-. apply andb_true_iff. split; apply Z.leb_le; lia.
Qed.

Lemma intMembers_is_int (name : string) (members : list (string * json.Value))
    (field : Z) (saved : option error) :
  is_int field = true → is_int (json.intMembers name members field saved).2 = true.
Proof.
  revert field saved. induction members as [|[key v] rest IH]; intros field saved Hfield.
  - exact Hfield.
  - simpl. destruct (json.matches name key); [|apply IH; exact Hfield].
    destruct (json.intField name v field) as [e|n] eqn:Hv.
    + apply IH. exact Hfield.
    + apply IH. destruct v; simpl in Hv; try discriminate.
      * injection Hv as <-. exact Hfield.
      * destruct (is_int n0) eqn:Hn0; [|discriminate]. injection Hv as <-. exact Hn0.
Qed.

(** What [Decode] stores is an [int]. *)
Lemma Decode_is_int (body : json.Input) (data : Data.t) :
  Data.Decode body = inr data → is_int (Data.ItemID data) = true.
Proof.
  destruct body as [err|v]; [discriminate|]. simpl.
  destruct v; try discriminate.
  - intros H. injection H as <-. reflexivity.
  - pose proof (intMembers_is_int "item_id" members 0 None eq_refl) as Hint.
    destruct (json.intMembers "item_id" members 0 None) as [[err|] n]; [discriminate|].
    intros H. injection H as <-. exact Hint.
Qed.

(** X2. The favorites handlers put nothing of the request into the text
    of a statement.  GET /favorites issues the one fixed join, with no
    bound value; POST and DELETE issue nothing at all (the 400 answers)
    or the one fixed INSERT, respectively DELETE, whose only bound value
    is a Go [int]. *)
Theorem favorites_statements_are_fixed {S : Type} (drv : sql.Driver S)
    (h : gmap string string) (r : http.Request) (db : sql.DB S) :
  let one (text : string) (after : sql.DB S) :=
    after = db
    ∨ ∃ n, is_int n = true
           ∧ sql.issued after = sql.issued db ++ [(text, [sql.Int n])] in
  sql.issued (getFavorites drv (http.fresh h) r db).2
    = sql.issued db ++ [(sqlSelectFavorites, [])]
  ∧ one sqlInsertFavorite (postFavorite drv (http.fresh h) r db).2
  ∧ one sqlDeleteFavorite (deleteFavorite drv (http.fresh h) r db).2.
Proof.
  intros one. subst one. cbv beta. split; [|split].
  - unfold getFavorites, sql.Query.
    destruct (sql.QueryContext drv _ _ _) as [st [err|rows]]; [reflexivity|].
    destruct (sql.scanAll Favorite.Scan (sql.Data rows) None); reflexivity.
  - unfold postFavorite, sql.Exec.
    destruct (Data.Decode (http.Body r)) as [err|data] eqn:Hdec; [left; reflexivity|].
    right. exists (Data.ItemID data). split; [exact (Decode_is_int _ _ Hdec)|].
    destruct (sql.ExecContext drv _ _ _) as [st [err|res]]; reflexivity.
  - unfold deleteFavorite, sql.Exec.
    destruct (strconv.Atoi _) as [e|n] eqn:Hparse; [left; reflexivity|].
    right. exists n. split; [exact (Atoi_is_int _ _ Hparse)|].
    destruct (sql.ExecContext drv _ _ _) as [st [err|res]]; reflexivity.
Qed.

(** ** Headers *)

Lemma Error_keeps_header (h : gmap string string) (msg : string) (code : Z) (k : string) :
  ¬ In k contentHeaders →
  http.Header (http.Error msg code (http.fresh h)) !! k = h !! k.
Proof.
  intros Hk. rewrite Error_fresh. simpl in Hk |- *.
  rewrite !lookup_insert_ne, lookup_delete_ne by (intros <-; apply Hk; simpl; tauto).
  reflexivity.
Qed.

Lemma Encode_keeps_header (h : gmap string string) (v : json.Value) (k : string) :
  ¬ In k contentHeaders →
  http.Header (http.Encode v (http.Set_ "Content-Type" "application/json" (http.fresh h))) !! k
  = h !! k.
Proof.
  intros Hk. rewrite Encode_fresh. simpl in Hk |- *.
  rewrite lookup_insert_ne by (intros <-; apply Hk; simpl; tauto).
  reflexivity.
Qed.

Lemma route_keeps_header {S : Type} (drv : sql.Driver S)
    (h : gmap string string) (r : http.Request) (db : sql.DB S) (k : string)
    (route : mux.Route S) :
  ¬ In k contentHeaders → In route (router drv) →
  http.Header (mux.handlerFunc route (http.fresh h) r db).1 !! k = h !! k.
Proof.
  intros Hk [<-|[<-|[<-|[<-|[]]]]]; simpl.
  - destruct (getFavorites_answer drv h r db) as [[err ->]|[v ->]];
      [apply Error_keeps_header | apply Encode_keeps_header]; exact Hk.
  - destruct (postFavorite_answer drv h r db) as [[err ->]|[[err ->]| ->]];
      [apply Error_keeps_header; exact Hk | apply Error_keeps_header; exact Hk | reflexivity].
  - destruct (deleteFavorite_answer drv h r db) as [->|[[err ->]| ->]];
      [apply Error_keeps_header; exact Hk | apply Error_keeps_header; exact Hk | reflexivity].
  - destruct (getItems_answer drv h r db) as [[err ->]|[v ->]];
      [apply Error_keeps_header | apply Encode_keeps_header]; exact Hk.
Qed.

(** X3. A handler of the service touches no header field but
    [Content-Type], [X-Content-Type-Options] and [Content-Length]: every
    other field of the answer is as the handler found it, on success and
    on every error path. *)
Theorem handlers_keep_other_headers {S : Type} (drv : sql.Driver S)
    (h : gmap string string) (r : http.Request) (db : sql.DB S) (k : string) :
  ¬ In k contentHeaders →
  Forall (fun f : @Handler S => http.Header (f (http.fresh h) r db).1 !! k = h !! k)
    (map mux.handlerFunc (router drv)).
Proof.
  intros Hk. apply Forall_forall. intros f Hf.
  apply list_elem_of_In, in_map_iff in Hf as (route & <- & Hin).
  apply (route_keeps_header drv); assumption.
Qed.

Lemma handlers_keep_other_headers_trace :
  let r := {| http.Method := "DELETE"; http.Vars := {[ "favoriteId" := "abc" ]};
              http.URLQuery := ∅; http.Body := json.Malformed "EOF" |} in
  let st := {| pg.favorite := []; pg.sneakers := [];
               pg.favorite_id_seq := 1; pg.favorite_item_fk := false |} in
  Forall (fun f : @Handler pg.Store =>
            http.Header (f (http.fresh {[ "X-Request-Id" := "7" ]}) r (sql.Open st)).1
              !! "X-Request-Id" = Some "7")
    (map mux.handlerFunc (router pg.fixed_only)).
Proof.
  intros r st.
  assert (Hk : ¬ In "X-Request-Id" contentHeaders).
  { simpl. intros [H|[H|[H|[]]]]; discriminate H. }
  pose proof (handlers_keep_other_headers pg.fixed_only {[ "X-Request-Id" := "7" ]} r
                (sql.Open st) "X-Request-Id" Hk) as Hkept.
  rewrite Forall_forall in Hkept |- *. intros f Hf.
  rewrite (Hkept f Hf). apply lookup_singleton_eq.
Defined.

(** ** The service as a whole *)

Lemma allowed_cors (h : gmap string string) :
  Forall (fun kv => allowed h !! kv.1 = Some kv.2) corsHeaders.
Proof.
  unfold allowed, corsHeaders. simpl. repeat constructor; simpl.
  - rewrite !lookup_insert_ne by done. apply lookup_insert_eq.
  - rewrite lookup_insert_ne by done. apply lookup_insert_eq.
  - apply lookup_insert_eq.
Qed.

Lemma cors_not_content : Forall (fun kv : string * string => ¬ In kv.1 contentHeaders) corsHeaders.
Proof.
  repeat constructor; simpl; intros [H|[H|[H|[]]]]; discriminate H.
Qed.

Lemma cors_not_location :
  Forall (fun kv : string * string => kv.1 ≠ "Location") corsHeaders.
Proof. repeat constructor; simpl; discriminate. Qed.

(** A match is a match of one of the routes: its path matcher gave the
    variables and its methods include the request's. *)
Lemma Match_route {S : Type} (routes : list (mux.Route S)) (p method : string)
    (mismatch : bool) (f : @Handler S) (vars : gmap string string) :
  mux.Match routes p method mismatch = mux.Matched f vars →
  ∃ route, In route routes
           ∧ mux.matchPath (mux.template route) p = Some vars
           ∧ existsb (String.eqb method) (mux.methods route) = true
           ∧ f = mux.handlerFunc route.
Proof.
  revert mismatch. induction routes as [|route rest IH]; intros mismatch Hm; simpl in Hm.
  - destruct mismatch; discriminate.
  - destruct (mux.matchPath (mux.template route) p) as [vars'|] eqn:Hpath.
    + destruct (existsb (String.eqb method) (mux.methods route)) eqn:Hmeth.
      * injection Hm as <- <-. exists route. repeat split; try assumption. left. reflexivity.
      * destruct (IH _ Hm) as (rt & Hin & Hrt). exists rt. split; [right; exact Hin|exact Hrt].
    + destruct (IH _ Hm) as (rt & Hin & Hrt). exists rt. split; [right; exact Hin|exact Hrt].
Qed.

(** X4. Every answer of the service carries the three Access-Control
    headers: the preflight answer, the answers of the four handlers on
    success and on error, and the router's own 301, 404 and 405. *)
Theorem handler_always_allows {S : Type} (drv : sql.Driver S)
    (location : string → string) (p : string)
    (h : gmap string string) (r : http.Request) (db : sql.DB S) :
  Forall (fun kv => http.Header (handler drv location p (http.fresh h) r db).1 !! kv.1
                    = Some kv.2)
    corsHeaders.
Proof.
  pose proof (allowed_cors h) as Hset.
  pose proof cors_not_content as Hother.
  pose proof cors_not_location as Hloc.
  unfold handler, enableCORS.
  change (http.Set_ _ _ (http.Set_ _ _ (http.Set_ _ _ (http.fresh h))))
    with (http.fresh (allowed h)).
  destruct (String.eqb (http.Method r) "OPTIONS"); [exact Hset|].
  unfold mux.ServeHTTP.
  destruct (negb (String.eqb (mux.cleanPath p) p)).
  { simpl. rewrite Forall_forall in Hset, Hloc |- *. intros kv Hkv.
    rewrite lookup_insert_ne by (intros Heq; apply (Hloc kv Hkv); symmetry; exact Heq).
    apply Hset. exact Hkv. }
  destruct (mux.Match (router drv) p (http.Method r) false) as [f vars| |] eqn:Hm.
  - apply Match_route in Hm as (route & Hin & _ & _ & ->).
    rewrite Forall_forall in Hset, Hother |- *. intros kv Hkv.
    rewrite (route_keeps_header drv (allowed h) _ db kv.1 route (Hother kv Hkv) Hin).
    apply Hset. exact Hkv.
  - exact Hset.
  - rewrite Forall_forall in Hset, Hother |- *. intros kv Hkv. cbn [fst].
    rewrite Error_keeps_header by (apply Hother; exact Hkv). apply Hset. exact Hkv.
Qed.

Lemma trimPrefix_Some (prefix s seg : string) :
  mux.trimPrefix prefix s = Some seg → s = prefix +:+ seg.
Proof.
  revert s. induction prefix as [|c prefix IH]; intros s Htrim; simpl in Htrim.
  - injection Htrim as ->. reflexivity.
  - destruct s as [|a s]; [discriminate|].
    destruct (Ascii.eqb_spec c a) as [->|]; [|discriminate].
    change (String a prefix +:+ seg) with (String a (prefix +:+ seg)).
    f_equal. apply IH. exact Htrim.
Qed.

Lemma method_is (method name : string) :
  existsb (String.eqb method) [name] = true → method = name.
Proof.
  simpl. rewrite orb_false_r. apply String.eqb_eq.
Qed.

(** X5. The database is reached through the four registered routes
    only.  For any other request (an OPTIONS request, a path that is not
    in canonical form, a path no route knows, a method its route does not
    take) the service answers on its own and hands the database back
    untouched, with no statement issued. *)
Theorem handler_reaches_database_by_route_only {S : Type} (drv : sql.Driver S)
    (location : string → string) (p : string)
    (h : gmap string string) (r : http.Request) (db : sql.DB S) :
  let out := handler drv location p (http.fresh h) r db in
  out.2 = db
  ∨ (mux.cleanPath p = p
     ∧ ((http.Method r = "GET" ∧ p = "/favorites")
        ∨ (http.Method r = "POST" ∧ p = "/favorites")
        ∨ (http.Method r = "DELETE"
           ∧ ∃ seg, p = "/favorites/" +:+ seg ∧ seg ≠ "" ∧ mux.noSlash seg = true)
        ∨ (http.Method r = "GET" ∧ p = "/items"))).
Proof.
  intros out. subst out. unfold handler, enableCORS.
  destruct (String.eqb (http.Method r) "OPTIONS"); [left; reflexivity|].
  unfold mux.ServeHTTP.
  destruct (String.eqb_spec (mux.cleanPath p) p) as [Hclean|_]; [|left; reflexivity].
  cbn [negb].
  destruct (mux.Match (router drv) p (http.Method r) false) as [f vars| |] eqn:Hm;
    [|left; reflexivity|left; reflexivity].
  right. split; [exact Hclean|].
  apply Match_route in Hm as (route & Hin & Hpath & Hmeth & _).
  destruct Hin as [<-|[<-|[<-|[<-|[]]]]];
    cbn [mux.matchPath mux.template mux.methods] in Hpath, Hmeth;
    apply method_is in Hmeth.
  - destruct (String.eqb_spec p "/favorites") as [->|]; [|discriminate]. tauto.
  - destruct (String.eqb_spec p "/favorites") as [->|]; [|discriminate]. tauto.
  - destruct (mux.trimPrefix "/favorites/" p) as [seg|] eqn:Htrim; [|discriminate].
    apply trimPrefix_Some in Htrim.
    destruct (String.eqb_spec seg "") as [|Hseg]; [discriminate|].
    destruct (mux.noSlash seg) eqn:Hslash; [|discriminate].
    right. right. left. split; [exact Hmeth|]. exists seg. tauto.
  - destruct (String.eqb_spec p "/items") as [->|]; [|discriminate]. tauto.
Qed.

(** The route of DELETE hands the path segment over as it is. *)
Lemma handler_delete_route {S : Type} (drv : sql.Driver S)
    (location : string → string) (seg : string)
    (h : gmap string string) (r : http.Request) (db : sql.DB S) :
  http.Method r = "DELETE" →
  seg ≠ "" → mux.noSlash seg = true →
  mux.cleanPath ("/favorites/" +:+ seg) = "/favorites/" +:+ seg →
  handler drv location ("/favorites/" +:+ seg) (http.fresh h) r db
  = deleteFavorite drv (http.fresh (allowed h))
      {| http.Method := "DELETE"; http.Vars := {[ "favoriteId" := seg ]};
         http.URLQuery := http.URLQuery r; http.Body := http.Body r |} db.
Proof.
  intros Hmethod Hseg Hslash Hclean. unfold handler, enableCORS.
  rewrite Hmethod. cbn [String.eqb Ascii.eqb Bool.eqb].
  change (http.Set_ _ _ (http.Set_ _ _ (http.Set_ _ _ (http.fresh h))))
    with (http.fresh (allowed h)).
  unfold mux.ServeHTTP. rewrite Hclean, String.eqb_refl. cbn [negb].
  rewrite Hmethod.
  assert (Hm : mux.Match (router drv) ("/favorites/" +:+ seg) "DELETE" false
               = mux.Matched (deleteFavorite drv) {[ "favoriteId" := seg ]}).
  { apply String.eqb_neq in Hseg.
    assert (Hother : String.eqb ("/favorites/" +:+ seg) "/favorites" = false)
      by reflexivity.
    assert (Htrim : mux.trimPrefix "/favorites/" ("/favorites/" +:+ seg) = Some seg)
      by reflexivity.
    unfold router.
    cbn [mux.Match mux.matchPath mux.template mux.methods mux.handlerFunc].
    rewrite Hother, Htrim, Hseg, Hslash. reflexivity. }
  rewrite Hm. reflexivity.
Qed.

(** X6. Through the whole service, a DELETE request for the canonical
    path [/favorites/seg] is decided by the segment alone: when [seg]
    does not parse as an [int] the answer is 400 with the fixed line and
    no statement is issued; when it parses as [n], exactly one statement
    is issued, the fixed DELETE bound to [n], and the answer is 204 or
    (when the statement fails) 500. *)
Theorem handler_delete_by_segment {S : Type} (drv : sql.Driver S)
    (location : string → string) (seg : string)
    (h : gmap string string) (r : http.Request) (db : sql.DB S) :
  http.Method r = "DELETE" →
  seg ≠ "" → mux.noSlash seg = true →
  mux.cleanPath ("/favorites/" +:+ seg) = "/favorites/" +:+ seg →
  let out := handler drv location ("/favorites/" +:+ seg) (http.fresh h) r db in
  match strconv.Atoi seg with
  | inl _ =>
      http.Status out.1 = Some 400
      ∧ http.Written out.1 = [http.Line "Invalid favorite ID"]
      ∧ out.2 = db
  | inr n =>
      sql.issued out.2 = sql.issued db ++ [(sqlDeleteFavorite, [sql.Int n])]
      ∧ (http.Status out.1 = Some 204 ∨ http.Status out.1 = Some 500)
  end.
Proof.
  intros Hmethod Hseg Hslash Hclean out. subst out.
  rewrite handler_delete_route by assumption.
  unfold deleteFavorite, sql.Exec. cbn [http.Vars].
  rewrite lookup_singleton_eq. change (default "" (Some seg)) with seg.
  destruct (strconv.Atoi seg) as [e|n].
  - repeat split; reflexivity.
  - destruct (sql.ExecContext drv _ _ _) as [st [err|res]]; simpl; tauto.
Qed.

Lemma handler_delete_by_segment_42 :
  let r := {| http.Method := "DELETE"; http.Vars := ∅; http.URLQuery := ∅;
              http.Body := json.Malformed "EOF" |} in
  let st := {| pg.favorite := [{| pg.f_id := 42; pg.f_item_id := 2 |}];
               pg.sneakers := []; pg.favorite_id_seq := 43;
               pg.favorite_item_fk := false |} in
  let out := handler pg.fixed_only (fun p => p) "/favorites/42" (http.fresh ∅) r
               (sql.Open st) in
  sql.issued out.2 = [(sqlDeleteFavorite, [sql.Int 42])]
  ∧ (http.Status out.1 = Some 204 ∨ http.Status out.1 = Some 500).
Proof.
  intros r st.
  apply (handler_delete_by_segment pg.fixed_only (fun p => p) "42" ∅ r (sql.Open st)).
  - reflexivity.
  - discriminate.
  - reflexivity.
  - reflexivity.
Defined.

(** * Further properties on the reference store *)

(** ** The two changing handlers on the reference store *)

Lemma postFavorite_pg (other : sql.Driver pg.Store) (h : gmap string string)
    (r : http.Request) (db : sql.DB pg.Store) (i : Z) :
  Data.Decode (http.Body r) = inr {| Data.ItemID := i |} →
  pg.favorite_item_fk (sql.store db) = false ∨ In i (map pg.s_id (pg.sneakers (sql.store db))) →
  postFavorite (pg.driver other) (http.fresh h) r db
  = (http.WriteHeader 201 (http.fresh h),
     {| sql.store :=
          {| pg.favorite := pg.favorite (sql.store db)
                            ++ [{| pg.f_id := pg.favorite_id_seq (sql.store db);
                                   pg.f_item_id := i |}];
             pg.sneakers := pg.sneakers (sql.store db);
             pg.favorite_id_seq := pg.favorite_id_seq (sql.store db) + 1;
             pg.favorite_item_fk := pg.favorite_item_fk (sql.store db) |};
        sql.issued := sql.issued db ++ [(sqlInsertFavorite, [sql.Int i])] |}).
Proof.
  intros Hdec Hmay. unfold postFavorite, sql.Exec. rewrite Hdec.
  cbn [Data.ItemID]. simpl. unfold pg.insertFavorite.
  assert (Hgo : pg.favorite_item_fk (sql.store db) && negb (pg.references (sql.store db) i)
                = false).
  { destruct Hmay as [->|Hin]; [reflexivity|].
    rewrite (references_In _ _ Hin). apply andb_false_r. }
  rewrite Hgo. reflexivity.
Qed.

Lemma deleteFavorite_pg (other : sql.Driver pg.Store) (h : gmap string string)
    (r : http.Request) (db : sql.DB pg.Store) (n : Z) :
  strconv.Atoi (default "" (http.Vars r !! "favoriteId")) = inr n →
  deleteFavorite (pg.driver other) (http.fresh h) r db
  = (http.WriteHeader 204 (http.fresh h),
     {| sql.store := (pg.deleteFavorite n (sql.store db)).1;
        sql.issued := sql.issued db ++ [(sqlDeleteFavorite, [sql.Int n])] |}).
Proof.
  intros Hparse. unfold deleteFavorite, sql.Exec. rewrite Hparse. reflexivity.
Qed.

(** What GET /favorites writes is decided by the join alone. *)
Lemma getFavorites_pg_join (other1 other2 : sql.Driver pg.Store)
    (h : gmap string string) (r1 r2 : http.Request) (db1 db2 : sql.DB pg.Store) :
  pg.innerJoin (sql.store db1) = pg.innerJoin (sql.store db2) →
  (getFavorites (pg.driver other1) (http.fresh h) r1 db1).1
  = (getFavorites (pg.driver other2) (http.fresh h) r2 db2).1.
Proof.
  intros Hjoin. unfold getFavorites, sql.Query. simpl.
  unfold pg.selectFavorites. rewrite Hjoin.
  destruct (sql.scanAll Favorite.Scan _ None); reflexivity.
Qed.

(** ** The join after a change of [favorite] *)

Lemma filter_pairs (f : pg.favorite_row) (ss : list pg.sneakers_row)
    (p : pg.favorite_row → bool) :
  List.filter (fun fs : pg.favorite_row * pg.sneakers_row => p fs.1) (map (pair f) ss)
  = if p f then map (pair f) ss else [].
Proof.
  induction ss as [|s ss IH]; simpl; [destruct (p f); reflexivity|].
  rewrite IH. destruct (p f); reflexivity.
Qed.

Lemma innerJoin_deleted (n : Z) (st : pg.Store) :
  pg.innerJoin (pg.deleteFavorite n st).1
  = List.filter (fun fs => negb (pg.f_id fs.1 =? n)) (pg.innerJoin st).
Proof.
  unfold pg.innerJoin, pg.deleteFavorite. cbn [fst pg.favorite pg.sneakers].
  induction (pg.favorite st) as [|f fs IH]; [reflexivity|].
  cbn [List.filter flat_map]. rewrite List.filter_app, <- IH.
  rewrite (filter_pairs f _ (fun f => negb (pg.f_id f =? n))).
  destruct (negb (pg.f_id f =? n)); reflexivity.
Qed.

Lemma innerJoin_inserted (st : pg.Store) (f : pg.favorite_row) (seq : Z) (fk : bool) :
  pg.innerJoin {| pg.favorite := pg.favorite st ++ [f]; pg.sneakers := pg.sneakers st;
                  pg.favorite_id_seq := seq; pg.favorite_item_fk := fk |}
  = pg.innerJoin st
    ++ map (pair f) (List.filter (fun s => pg.f_item_id f =? pg.s_id s) (pg.sneakers st)).
Proof.
  unfold pg.innerJoin. cbn [pg.favorite pg.sneakers].
  rewrite flat_map_app. simpl. rewrite app_nil_r. reflexivity.
Qed.

Lemma filter_key_none (rows : list pg.sneakers_row) (i : Z) :
  ¬ In i (map pg.s_id rows) → List.filter (fun s => i =? pg.s_id s) rows = [].
Proof.
  induction rows as [|s rows IH]; intros Hnone; [reflexivity|]. simpl in *.
  destruct (Z.eqb_spec i (pg.s_id s)) as [Heq|Hne].
  - exfalso. apply Hnone. left. symmetry. exact Heq.
  - apply IH. intros Hin. apply Hnone. right. exact Hin.
Qed.

(** Under the keys, no two rows of the join carry the same favorite. *)
Lemma innerJoin_key (st : pg.Store) :
  consistent st → NoDup (map (fun fs => pg.f_id fs.1) (pg.innerJoin st)).
Proof.
  intros (Hfav & _ & Hsn). unfold pg.innerJoin.
  induction (pg.favorite st) as [|f fs IH]; [constructor|].
  simpl in Hfav. apply NoDup_cons in Hfav as [Hfresh Hfav].
  cbn [flat_map]. rewrite map_app. apply NoDup_app. split; [|split].
  - destruct (in_dec Z.eq_dec (pg.f_item_id f) (map pg.s_id (pg.sneakers st))) as [Hin|Hout].
    + destruct (filter_key_unique _ _ Hsn Hin) as (s & -> & _). apply NoDup_singleton.
    + rewrite (filter_key_none _ _ Hout). constructor.
  - intros k Hk Hrest. apply Hfresh.
    apply list_elem_of_In, in_map_iff in Hk as ([f' s'] & <- & Hk).
    apply in_map_iff in Hk as (s'' & Heq & _). injection Heq as <- <-.
    apply list_elem_of_In, in_map_iff in Hrest as ([g s] & Hg & Hrest). simpl in Hg |- *.
    apply in_flat_map in Hrest as (g' & Hg' & Hrest).
    apply in_map_iff in Hrest as (s0 & Heq & _). injection Heq as <- <-.
    apply list_elem_of_In, in_map_iff. exists g'. split; [exact Hg|exact Hg'].
  - apply IH. exact Hfav.
Qed.

Lemma remove_by_key {A : Type} (key : A → Z) (l : list A) (e : A) :
  NoDup (map key l) → In e l →
  Permutation l (e :: List.filter (fun x => negb (key x =? key e)) l).
Proof.
  induction l as [|x l IH]; intros Hkey Hin; [destruct Hin|].
  simpl in Hkey. apply NoDup_cons in Hkey as [Hfresh Hkey].
  destruct Hin as [->|Hin].
  - simpl. rewrite Z.eqb_refl. simpl. apply perm_skip.
    rewrite List.forallb_filter_id; [reflexivity|].
    apply forallb_forall. intros y Hy. apply negb_true_iff, Z.eqb_neq.
    intros Heq. apply Hfresh. rewrite <- Heq.
    apply list_elem_of_In, in_map. exact Hy.
  - simpl. destruct (Z.eqb_spec (key x) (key e)) as [Heq|Hne].
    + exfalso. apply Hfresh. rewrite Heq. apply list_elem_of_In, in_map. exact Hin.
    + simpl. rewrite perm_swap. apply perm_skip. apply IH; assumption.
Qed.

(** ** DELETE /favorites/{favoriteId}, then GET /favorites *)

(** X7. On the reference store, listing the favorites, deleting the
    identifier [n] and listing again answers 200, 204 and 200.  The
    first list holds the entries of the join, and the second list is
    the first one without the entries whose [id] is [n], the others in
    their order.  When the store keeps its keys, an [n] that the first
    list shows is the [id] of exactly one entry, and exactly that entry
    is gone. *)
Theorem delete_then_get_removes_favorite (other : sql.Driver pg.Store)
    (h1 h2 h3 : gmap string string) (r1 r2 r3 : http.Request)
    (db : sql.DB pg.Store) (n : Z) :
  strconv.Atoi (default "" (http.Vars r2 !! "favoriteId")) = inr n →
  let drv := pg.driver other in
  let before := getFavorites drv (http.fresh h1) r1 db in
  let deleted := deleteFavorite drv (http.fresh h2) r2 before.2 in
  let after := getFavorites drv (http.fresh h3) r3 deleted.2 in
  ∃ v0 v1 : json.Value,
    http.Status before.1 = Some 200
    ∧ http.Written before.1 = [http.JSON v0]
    ∧ http.Status deleted.1 = Some 204
    ∧ http.Written deleted.1 = []
    ∧ http.Status after.1 = Some 200
    ∧ http.Written after.1 = [http.JSON v1]
    ∧ v0 = listJSON (entries v0)
    ∧ v1 = listJSON (entries v1)
    ∧ entries v0 = map favoriteJSON (pg.innerJoin (sql.store db))
    ∧ entries v1 = List.filter (fun e => negb (hasId n e)) (entries v0)
    ∧ (consistent (sql.store db) →
       ∀ e, In e (entries v0) → hasId n e = true →
            Permutation (entries v0) (e :: entries v1)).
Proof.
  intros Hparse drv before deleted after.
  pose proof (getFavorites_pg_listing other h1 r1 db) as Hbefore. fold drv before in Hbefore.
  assert (Hdel : deleted.1 = http.WriteHeader 204 (http.fresh h2)
                 ∧ sql.store deleted.2 = (pg.deleteFavorite n (sql.store db)).1).
  { subst deleted. unfold drv. rewrite (deleteFavorite_pg other h2 r2 _ n Hparse).
    rewrite Hbefore. split; reflexivity. }
  destruct Hdel as (Hanswer & Hstore).
  pose proof (getFavorites_pg_listing other h3 r3 deleted.2) as Hafter.
  fold drv after in Hafter. rewrite Hstore, innerJoin_deleted in Hafter.
  set (join := pg.innerJoin (sql.store db)) in *.
  set (kept := List.filter (fun fs => negb (pg.f_id fs.1 =? n)) join) in *.
  assert (Hkept : map favoriteJSON kept
                  = List.filter (fun e => negb (hasId n e)) (map favoriteJSON join)).
  { unfold kept. rewrite List.filter_map_swap. reflexivity. }
  exists (listJSON (map favoriteJSON join)), (listJSON (map favoriteJSON kept)).
  rewrite Hbefore, Hafter, Hanswer, !entries_listJSON.
  cbn [fst http.Status http.Written].
  split; [reflexivity|]. split; [reflexivity|]. split; [reflexivity|].
  split; [reflexivity|]. split; [reflexivity|]. split; [reflexivity|].
  split; [reflexivity|]. split; [reflexivity|]. split; [reflexivity|].
  split; [exact Hkept|].
  intros Hkeys e Hin He.
  apply in_map_iff in Hin as (fs & <- & Hin).
  assert (Hn : n = pg.f_id fs.1).
  { unfold hasId, favoriteJSON in He. simpl in He. apply Z.eqb_eq in He.
    symmetry. exact He. }
  change (favoriteJSON fs :: map favoriteJSON kept) with (map favoriteJSON (fs :: kept)).
  apply Permutation_map. unfold kept. rewrite Hn.
  apply (remove_by_key (fun fs => pg.f_id fs.1)); [|exact Hin].
  exact (innerJoin_key _ Hkeys).
Qed.

Lemma delete_then_get_removes_favorite_run :
  let air := {| pg.s_id := 1; pg.s_title := "Air Max"; pg.s_price := 100;
                pg.s_imageUrl := "air.png"; pg.s_isFavorite := false;
                pg.s_favoriteId := None; pg.s_isAdded := false |} in
  let db := sql.Open {| pg.favorite := [{| pg.f_id := 1; pg.f_item_id := 1 |};
                                        {| pg.f_id := 2; pg.f_item_id := 1 |}];
                        pg.sneakers := [air];
                        pg.favorite_id_seq := 3; pg.favorite_item_fk := true |} in
  let get := {| http.Method := "GET"; http.Vars := ∅; http.URLQuery := ∅;
                http.Body := json.Malformed "EOF" |} in
  let delete := {| http.Method := "DELETE"; http.Vars := {[ "favoriteId" := "2" ]};
                   http.URLQuery := ∅; http.Body := json.Malformed "EOF" |} in
  let before := getFavorites pg.fixed_only (http.fresh ∅) get db in
  let deleted := deleteFavorite pg.fixed_only (http.fresh ∅) delete before.2 in
  let after := getFavorites pg.fixed_only (http.fresh ∅) get deleted.2 in
  let entry := fun id : Z =>
    json.Obj [("id", json.Num id); ("item_id", json.Num 1);
              ("title", json.Str "Air Max"); ("price", json.Num 100);
              ("image_url", json.Str "air.png");
              ("is_favorite", json.Bool false); ("favorite_id", json.Null);
              ("is_added", json.Bool false)] in
  (∃ v0 v1 : json.Value,
     http.Written before.1 = [http.JSON v0]
     ∧ http.Status deleted.1 = Some 204
     ∧ http.Written after.1 = [http.JSON v1]
     ∧ entries v1 = List.filter (fun e => negb (hasId 2 e)) (entries v0))
  ∧ http.Written before.1 = [http.JSON (json.Arr [entry 1; entry 2])]
  ∧ http.Written after.1 = [http.JSON (json.Arr [entry 1])].
Proof.
  intros air db get delete before deleted after entry.
  split; [|vm_compute; split; reflexivity].
  destruct (delete_then_get_removes_favorite pg.refusing ∅ ∅ ∅ get delete get db 2)
    as (v0 & v1 & _ & Hw0 & Hs & _ & _ & Hw1 & _ & _ & _ & Hl & _).
  - reflexivity.
  - exists v0, v1. repeat split; assumption.
Defined.

(** ** POST /favorites, then DELETE of the new identifier *)

Lemma filter_drawn (fs : list pg.favorite_row) (seq : Z) :
  Forall (fun f => pg.f_id f < seq) fs →
  List.filter (fun f => negb (pg.f_id f =? seq)) fs = fs.
Proof.
  intros Hdrawn. apply List.forallb_filter_id, forallb_forall.
  intros f Hf. rewrite Forall_forall in Hdrawn.
  apply negb_true_iff, Z.eqb_neq. apply list_elem_of_In, Hdrawn in Hf. lia.
Qed.

(** X8. On the reference store whose identifiers were all drawn from
    the sequence, a POST that is accepted followed by a DELETE of the
    identifier the store gave the new row restores the relation
    [favorite], and GET /favorites writes what it wrote before the two.
    Only the sequence has moved on. *)
Theorem post_then_delete_restores (other : sql.Driver pg.Store)
    (h1 h2 h3 : gmap string string) (r1 r2 r3 : http.Request)
    (db : sql.DB pg.Store) (i : Z) :
  Forall (fun f => pg.f_id f < pg.favorite_id_seq (sql.store db))
    (pg.favorite (sql.store db)) →
  Data.Decode (http.Body r1) = inr {| Data.ItemID := i |} →
  pg.favorite_item_fk (sql.store db) = false
  ∨ In i (map pg.s_id (pg.sneakers (sql.store db))) →
  strconv.Atoi (default "" (http.Vars r2 !! "favoriteId"))
    = inr (pg.favorite_id_seq (sql.store db)) →
  let drv := pg.driver other in
  let posted := postFavorite drv (http.fresh h1) r1 db in
  let deleted := deleteFavorite drv (http.fresh h2) r2 posted.2 in
  http.Status posted.1 = Some 201
  ∧ http.Status deleted.1 = Some 204
  ∧ pg.favorite (sql.store deleted.2) = pg.favorite (sql.store db)
  ∧ pg.sneakers (sql.store deleted.2) = pg.sneakers (sql.store db)
  ∧ pg.favorite_id_seq (sql.store deleted.2) = pg.favorite_id_seq (sql.store db) + 1
  ∧ (getFavorites drv (http.fresh h3) r3 deleted.2).1
    = (getFavorites drv (http.fresh h3) r3 db).1.
Proof.
  intros Hdrawn Hdec Hmay Hparse drv posted deleted.
  assert (Hpost := postFavorite_pg other h1 r1 db i Hdec Hmay).
  fold drv posted in Hpost.
  assert (Hdel := deleteFavorite_pg other h2 r2 posted.2 _ Hparse).
  fold drv deleted in Hdel.
  assert (Hfav : pg.favorite (sql.store deleted.2) = pg.favorite (sql.store db)).
  { rewrite Hdel, Hpost. cbn [snd fst sql.store]. unfold pg.deleteFavorite.
    cbn [fst pg.favorite]. rewrite List.filter_app, (filter_drawn _ _ Hdrawn).
    simpl. rewrite Z.eqb_refl. simpl. apply app_nil_r. }
  assert (Hsn : pg.sneakers (sql.store deleted.2) = pg.sneakers (sql.store db)).
  { rewrite Hdel, Hpost. reflexivity. }
  split; [rewrite Hpost; reflexivity|]. split; [rewrite Hdel; reflexivity|].
  split; [exact Hfav|]. split; [exact Hsn|].
  split; [rewrite Hdel, Hpost; reflexivity|].
  apply getFavorites_pg_join. unfold pg.innerJoin. rewrite Hfav, Hsn. reflexivity.
Qed.

Lemma post_then_delete_restores_run :
  let air := {| pg.s_id := 1; pg.s_title := "Air Max"; pg.s_price := 100;
                pg.s_imageUrl := "air.png"; pg.s_isFavorite := false;
                pg.s_favoriteId := None; pg.s_isAdded := false |} in
  let st := {| pg.favorite := [{| pg.f_id := 1; pg.f_item_id := 1 |}];
               pg.sneakers := [air];
               pg.favorite_id_seq := 2; pg.favorite_item_fk := true |} in
  let post := {| http.Method := "POST"; http.Vars := ∅; http.URLQuery := ∅;
                 http.Body := json.Document (json.Obj [("item_id", json.Num 1)]) |} in
  let delete := {| http.Method := "DELETE"; http.Vars := {[ "favoriteId" := "2" ]};
                   http.URLQuery := ∅; http.Body := json.Malformed "EOF" |} in
  let posted := postFavorite pg.fixed_only (http.fresh ∅) post (sql.Open st) in
  let deleted := deleteFavorite pg.fixed_only (http.fresh ∅) delete posted.2 in
  pg.favorite (sql.store posted.2)
    = [{| pg.f_id := 1; pg.f_item_id := 1 |}; {| pg.f_id := 2; pg.f_item_id := 1 |}]
  ∧ pg.favorite (sql.store deleted.2) = pg.favorite st.
Proof.
  intros air st post delete.
  destruct (post_then_delete_restores pg.refusing ∅ ∅ ∅ post delete post (sql.Open st) 1)
    as (_ & _ & Hfav & _).
  - repeat constructor.
  - reflexivity.
  - right. left. reflexivity.
  - reflexivity.
  - split; [reflexivity|exact Hfav].
Defined.

(** ** What the favorites handlers keep *)

Lemma NoDup_map_filter {A : Type} (key : A → Z) (p : A → bool) (l : list A) :
  NoDup (map key l) → NoDup (map key (List.filter p l)).
Proof.
  induction l as [|x l IH]; intros Hkey; [constructor|].
  simpl in Hkey. apply NoDup_cons in Hkey as [Hfresh Hkey]. simpl.
  destruct (p x); [|apply IH; exact Hkey].
  simpl. apply NoDup_cons. split; [|apply IH; exact Hkey].
  intros Hin. apply Hfresh.
  apply list_elem_of_In, in_map_iff in Hin as (y & Hy & Hin).
  apply filter_In in Hin as [Hin _].
  apply list_elem_of_In, in_map_iff. exists y. split; assumption.
Qed.

Lemma insertFavorite_consistent (i : Z) (st : pg.Store) :
  consistent st →
  consistent (pg.insertFavorite i st).1
  ∧ pg.sneakers (pg.insertFavorite i st).1 = pg.sneakers st.
Proof.
  intros (Hkey & Hdrawn & Hsn). unfold pg.insertFavorite.
  destruct (pg.favorite_item_fk st && negb (pg.references st i)).
  - split; [|reflexivity]. split; [exact Hkey|]. split; assumption.
  - split; [|reflexivity]. unfold consistent. cbn [fst pg.favorite pg.favorite_id_seq].
    split; [|split; [|exact Hsn]].
    + rewrite map_app. apply NoDup_app. split; [exact Hkey|].
      split; [|apply NoDup_singleton].
      intros k Hk Hnew. apply list_elem_of_In in Hnew. destruct Hnew as [<-|[]].
      apply list_elem_of_In, in_map_iff in Hk as (f & Hf & Hin).
      rewrite Forall_forall in Hdrawn. apply list_elem_of_In, Hdrawn in Hin.
      simpl in Hf. lia.
    + apply Forall_app. split.
      * eapply Forall_impl; [exact Hdrawn|]. intros f Hf. simpl in Hf. lia.
      * constructor; [simpl; lia|constructor].
Qed.

Lemma deleteFavorite_consistent (n : Z) (st : pg.Store) :
  consistent st →
  consistent (pg.deleteFavorite n st).1
  ∧ pg.sneakers (pg.deleteFavorite n st).1 = pg.sneakers st.
Proof.
  intros (Hkey & Hdrawn & Hsn). split; [|reflexivity].
  unfold consistent, pg.deleteFavorite. cbn [fst pg.favorite pg.favorite_id_seq].
  split; [apply NoDup_map_filter; exact Hkey|]. split; [|exact Hsn].
  rewrite Forall_forall in Hdrawn |- *. intros f Hf.
  apply Hdrawn. apply list_elem_of_In, filter_In in Hf as [Hf _].
  apply list_elem_of_In. exact Hf.
Qed.

(** X9. The favorites handlers keep the reference store consistent and
    never change the catalog: after GET, POST or DELETE on /favorites,
    with any request, the identifiers of [favorite] are still distinct
    and below the sequence, and the relation [sneakers] is as before. *)
Theorem favorites_handlers_keep_store (other : sql.Driver pg.Store)
    (h : gmap string string) (r : http.Request) (db : sql.DB pg.Store) :
  consistent (sql.store db) →
  Forall (fun f : @Handler pg.Store =>
            consistent (sql.store (f (http.fresh h) r db).2)
            ∧ pg.sneakers (sql.store (f (http.fresh h) r db).2)
              = pg.sneakers (sql.store db))
    [getFavorites (pg.driver other); postFavorite (pg.driver other);
     deleteFavorite (pg.driver other)].
Proof.
  intros Hst.
  constructor; [|constructor; [|constructor; [|constructor]]].
  - destruct (getFavorites_pg other h r db) as (_ & _ & _ & _ & ->).
    split; [exact Hst|reflexivity].
  - unfold postFavorite, sql.Exec.
    destruct (Data.Decode (http.Body r)) as [err|data]; [split; [exact Hst|reflexivity]|].
    pose proof (insertFavorite_consistent (Data.ItemID data) _ Hst) as Hkept.
    simpl. destruct (pg.insertFavorite (Data.ItemID data) (sql.store db)) as [st' [e|res]];
      exact Hkept.
  - unfold deleteFavorite, sql.Exec.
    destruct (strconv.Atoi _) as [e|n]; [split; [exact Hst|reflexivity]|].
    exact (deleteFavorite_consistent n _ Hst).
Qed.

Lemma favorites_handlers_keep_store_run :
  let air := {| pg.s_id := 1; pg.s_title := "Air Max"; pg.s_price := 100;
                pg.s_imageUrl := "air.png"; pg.s_isFavorite := false;
                pg.s_favoriteId := None; pg.s_isAdded := false |} in
  let st := {| pg.favorite := [{| pg.f_id := 1; pg.f_item_id := 1 |}];
               pg.sneakers := [air];
               pg.favorite_id_seq := 2; pg.favorite_item_fk := true |} in
  let r := {| http.Method := "POST"; http.Vars := {[ "favoriteId" := "1" ]};
              http.URLQuery := ∅;
              http.Body := json.Document (json.Obj [("item_id", json.Num 1)]) |} in
  Forall (fun f : @Handler pg.Store =>
            consistent (sql.store (f (http.fresh ∅) r (sql.Open st)).2)
            ∧ pg.sneakers (sql.store (f (http.fresh ∅) r (sql.Open st)).2) = [air])
    [getFavorites (pg.driver pg.refusing); postFavorite (pg.driver pg.refusing);
     deleteFavorite (pg.driver pg.refusing)].
Proof.
  intros air st r.
  apply (favorites_handlers_keep_store pg.refusing ∅ r (sql.Open st)).
  split; [|split].
  - apply NoDup_singleton.
  - repeat constructor.
  - apply NoDup_singleton.
Defined.

(** ** Two POSTs for one item *)

(** X10. Nothing keeps an item from being a favorite twice.  On the
    reference store, with the sequence of [favorite.id] ahead of the
    table, two POSTs for the same existing item are both answered 201,
    and GET /favorites then shows two more entries for the item, under
    the two identifiers drawn from the sequence, which differ and which
    no entry carried before. *)
Theorem post_twice_adds_two_favorites (other : sql.Driver pg.Store)
    (h0 h1 h2 h3 : gmap string string) (r0 r1 r2 r3 : http.Request)
    (db : sql.DB pg.Store) (i : Z) :
  consistent (sql.store db) →
  In i (map pg.s_id (pg.sneakers (sql.store db))) →
  Data.Decode (http.Body r1) = inr {| Data.ItemID := i |} →
  Data.Decode (http.Body r2) = inr {| Data.ItemID := i |} →
  let drv := pg.driver other in
  let before := getFavorites drv (http.fresh h0) r0 db in
  let first := postFavorite drv (http.fresh h1) r1 before.2 in
  let second := postFavorite drv (http.fresh h2) r2 first.2 in
  let after := getFavorites drv (http.fresh h3) r3 second.2 in
  let drawn := pg.favorite_id_seq (sql.store db) in
  ∃ v0 v1 e1 e2 : json.Value,
    http.Written before.1 = [http.JSON v0]
    ∧ http.Status first.1 = Some 201
    ∧ http.Status second.1 = Some 201
    ∧ http.Status after.1 = Some 200
    ∧ http.Written after.1 = [http.JSON v1]
    ∧ v0 = listJSON (entries v0)
    ∧ v1 = json.Arr (entries v1)
    ∧ entries v0 = map favoriteJSON (pg.innerJoin (sql.store db))
    ∧ Permutation (entries v1) (e1 :: e2 :: entries v0)
    ∧ member "item_id" e1 = Some (json.Num i)
    ∧ member "item_id" e2 = Some (json.Num i)
    ∧ member "id" e1 = Some (json.Num drawn)
    ∧ member "id" e2 = Some (json.Num (drawn + 1))
    ∧ drawn ≠ drawn + 1
    ∧ Forall (fun e0 => hasId drawn e0 = false) (entries v0)
    ∧ Forall (fun e0 => hasId (drawn + 1) e0 = false) (entries v0).
Proof.
  intros Hcons Hin Hdec1 Hdec2 drv before first second after drawn.
  pose proof (getFavorites_pg_listing other h0 r0 db) as Hbefore. fold drv before in Hbefore.
  assert (Hkey : pg.sneakers_key (sql.store db)) by apply Hcons.
  destruct (filter_key_unique _ i Hkey Hin) as (s & Hfilter & Hs).
  set (f1 := {| pg.f_id := drawn; pg.f_item_id := i |}).
  set (f2 := {| pg.f_id := drawn + 1; pg.f_item_id := i |}).
  set (st1 := {| pg.favorite := pg.favorite (sql.store db) ++ [f1];
                 pg.sneakers := pg.sneakers (sql.store db);
                 pg.favorite_id_seq := drawn + 1;
                 pg.favorite_item_fk := pg.favorite_item_fk (sql.store db) |}).
  set (st2 := {| pg.favorite := pg.favorite st1 ++ [f2];
                 pg.sneakers := pg.sneakers st1;
                 pg.favorite_id_seq := drawn + 1 + 1;
                 pg.favorite_item_fk := pg.favorite_item_fk st1 |}).
  assert (Hst0 : sql.store before.2 = sql.store db) by (rewrite Hbefore; reflexivity).
  assert (Hfirst : first.1 = http.WriteHeader 201 (http.fresh h1)
                   ∧ sql.store first.2 = st1).
  { subst first. unfold drv. rewrite (postFavorite_pg other h1 r1 before.2 i Hdec1).
    - rewrite Hst0. split; reflexivity.
    - right. rewrite Hst0. exact Hin. }
  destruct Hfirst as [Hfirst Hst1].
  assert (Hsecond : second.1 = http.WriteHeader 201 (http.fresh h2)
                    ∧ sql.store second.2 = st2).
  { subst second. unfold drv. rewrite (postFavorite_pg other h2 r2 first.2 i Hdec2).
    - rewrite Hst1. split; reflexivity.
    - right. rewrite Hst1. exact Hin. }
  destruct Hsecond as [Hsecond Hst2].
  pose proof (getFavorites_pg_listing other h3 r3 second.2) as Hafter.
  fold drv after in Hafter. rewrite Hst2 in Hafter. unfold st2 in Hafter.
  rewrite innerJoin_inserted in Hafter. unfold st1 in Hafter at 1.
  rewrite innerJoin_inserted in Hafter.
  cbn [pg.f_item_id f1 f2 pg.sneakers st1] in Hafter.
  rewrite Hfilter, !map_app in Hafter. simpl map in Hafter.
  rewrite <- app_assoc in Hafter. simpl app in Hafter.
  set (listed := map favoriteJSON (pg.innerJoin (sql.store db))) in *.
  exists (listJSON listed), (json.Arr (listed ++ [favoriteJSON (f1, s); favoriteJSON (f2, s)])),
         (favoriteJSON (f1, s)), (favoriteJSON (f2, s)).
  rewrite Hbefore, Hafter, Hfirst, Hsecond, entries_listJSON.
  cbn [fst http.Status http.Written entries].
  split; [reflexivity|]. split; [reflexivity|]. split; [reflexivity|].
  split; [reflexivity|]. split.
  { destruct listed; reflexivity. }
  split; [reflexivity|]. split; [reflexivity|]. split; [reflexivity|].
  split; [rewrite Permutation_app_comm; reflexivity|].
  split; [reflexivity|]. split; [reflexivity|]. split; [reflexivity|].
  split; [reflexivity|]. split; [lia|].
  split; apply listed_below_sequence; try exact Hcons; fold drawn; lia.
Qed.

Lemma post_twice_adds_two_favorites_run :
  let air := {| pg.s_id := 1; pg.s_title := "Air Max"; pg.s_price := 100;
                pg.s_imageUrl := "air.png"; pg.s_isFavorite := false;
                pg.s_favoriteId := None; pg.s_isAdded := false |} in
  let db := sql.Open {| pg.favorite := []; pg.sneakers := [air];
                        pg.favorite_id_seq := 1; pg.favorite_item_fk := true |} in
  let get := {| http.Method := "GET"; http.Vars := ∅; http.URLQuery := ∅;
                http.Body := json.Malformed "EOF" |} in
  let post := {| http.Method := "POST"; http.Vars := ∅; http.URLQuery := ∅;
                 http.Body := json.Document (json.Obj [("item_id", json.Num 1)]) |} in
  let drv := pg.driver pg.refusing in
  let before := getFavorites drv (http.fresh ∅) get db in
  let first := postFavorite drv (http.fresh ∅) post before.2 in
  let second := postFavorite drv (http.fresh ∅) post first.2 in
  let after := getFavorites drv (http.fresh ∅) get second.2 in
  let entry := fun id : Z =>
    json.Obj [("id", json.Num id); ("item_id", json.Num 1);
              ("title", json.Str "Air Max"); ("price", json.Num 100);
              ("image_url", json.Str "air.png");
              ("is_favorite", json.Bool false); ("favorite_id", json.Null);
              ("is_added", json.Bool false)] in
  (∃ v0 v1 e1 e2 : json.Value,
     http.Written before.1 = [http.JSON v0]
     ∧ http.Written after.1 = [http.JSON v1]
     ∧ Permutation (entries v1) (e1 :: e2 :: entries v0)
     ∧ member "id" e1 = Some (json.Num 1)
     ∧ member "id" e2 = Some (json.Num 2))
  ∧ http.Written before.1 = [http.JSON json.Null]
  ∧ http.Status first.1 = Some 201
  ∧ http.Status second.1 = Some 201
  ∧ http.Written after.1 = [http.JSON (json.Arr [entry 1; entry 2])].
Proof.
  intros air db get post drv before first second after entry.
  split; [|vm_compute; repeat split; reflexivity].
  destruct (post_twice_adds_two_favorites pg.refusing ∅ ∅ ∅ ∅ get post post get db 1)
    as (v0 & v1 & e1 & e2 & Hw0 & _ & _ & _ & Hw1 & _ & _ & _ & Hperm & _ & _ & Hid1 & Hid2 & _).
  - split; [|split].
    + simpl. constructor.
    + simpl. constructor.
    + apply NoDup_singleton.
  - left. reflexivity.
  - reflexivity.
  - reflexivity.
  - exists v0, v1, e1, e2. repeat split; assumption.
Defined.

(** ** A favorite without a sneaker *)

(** X11. The handler does not check that the item exists.  On a
    reference store that does not enforce the reference, a POST for an
    identifier no sneaker carries is answered 201 and the row is stored,
    yet GET /favorites writes what it wrote before: the inner join
    leaves the row out. *)
Theorem post_orphan_is_stored_not_listed (other : sql.Driver pg.Store)
    (h1 h2 : gmap string string) (r1 r2 : http.Request)
    (db : sql.DB pg.Store) (i : Z) :
  pg.favorite_item_fk (sql.store db) = false →
  ¬ In i (map pg.s_id (pg.sneakers (sql.store db))) →
  Data.Decode (http.Body r1) = inr {| Data.ItemID := i |} →
  let drv := pg.driver other in
  let posted := postFavorite drv (http.fresh h1) r1 db in
  http.Status posted.1 = Some 201
  ∧ pg.favorite (sql.store posted.2)
    = pg.favorite (sql.store db)
      ++ [{| pg.f_id := pg.favorite_id_seq (sql.store db); pg.f_item_id := i |}]
  ∧ (getFavorites drv (http.fresh h2) r2 posted.2).1
    = (getFavorites drv (http.fresh h2) r2 db).1.
Proof.
  intros Hfk Hnone Hdec drv posted.
  assert (Hpost := postFavorite_pg other h1 r1 db i Hdec (or_introl Hfk)).
  fold drv posted in Hpost.
  split; [rewrite Hpost; reflexivity|]. split; [rewrite Hpost; reflexivity|].
  apply getFavorites_pg_join. rewrite Hpost. cbn [snd sql.store].
  rewrite innerJoin_inserted. cbn [pg.f_item_id].
  rewrite (filter_key_none _ _ Hnone). apply app_nil_r.
Qed.

Lemma post_orphan_is_stored_not_listed_run :
  let st := {| pg.favorite := []; pg.sneakers := [];
               pg.favorite_id_seq := 1; pg.favorite_item_fk := false |} in
  let get := {| http.Method := "GET"; http.Vars := ∅; http.URLQuery := ∅;
                http.Body := json.Malformed "EOF" |} in
  let post := {| http.Method := "POST"; http.Vars := ∅; http.URLQuery := ∅;
                 http.Body := json.Document (json.Obj [("item_id", json.Num 9)]) |} in
  let posted := postFavorite pg.fixed_only (http.fresh ∅) post (sql.Open st) in
  http.Status posted.1 = Some 201
  ∧ pg.favorite (sql.store posted.2) = [{| pg.f_id := 1; pg.f_item_id := 9 |}]
  ∧ http.Written (getFavorites pg.fixed_only (http.fresh ∅) get posted.2).1
    = [http.JSON json.Null].
Proof.
  intros st get post.
  destruct (post_orphan_is_stored_not_listed pg.refusing ∅ ∅ post get (sql.Open st) 9)
    as (Hstatus & Hstored & Hlist).
  - reflexivity.
  - intros [].
  - reflexivity.
  - split; [exact Hstatus|]. split; [exact Hstored|].
    cbv zeta in Hlist. unfold pg.fixed_only. rewrite Hlist. reflexivity.
Defined.

(** ** GET /items without parameters *)

(** X12. Without a [sortBy] value and with no [title] value, or an empty
    one, GET /items on the reference store issues the bare SELECT and
    answers 200 with the whole catalog: one entry for every row, with
    the seven fields of the row, in the order of the catalog, and
    [null] for an empty catalog.  The store is left as it is. *)
Theorem getItems_lists_catalog (other : sql.Driver pg.Store)
    (h : gmap string string) (r : http.Request) (db : sql.DB pg.Store) :
  http.Get (http.URLQuery r) "title" = "" →
  http.Get (http.URLQuery r) "sortBy" = "" →
  let out := getItems (pg.driver other) (http.fresh h) r db in
  http.Status out.1 = Some 200
  ∧ http.Written out.1
    = [http.JSON (listJSON (map itemJSON (pg.sneakers (sql.store db))))]
  ∧ http.Header out.1 !! "Content-Type" = Some "application/json"
  ∧ sql.store out.2 = sql.store db
  ∧ sql.issued out.2 = sql.issued db ++ [(sqlSelectItems, [])].
Proof.
  intros Htitle Hsort out. subst out.
  pose proof (getItems_listing (pg.driver other) h r db (sql.store db)
                (pg.sneakers (sql.store db)) None) as Hlist.
  cbv zeta in Hlist. rewrite Htitle, Hsort in Hlist. rewrite (Hlist eq_refl).
  cbn [fst snd http.Status http.Written http.Header sql.store sql.issued].
  split; [reflexivity|]. split; [reflexivity|].
  split; [apply lookup_insert_eq|]. split; reflexivity.
Qed.

Lemma getItems_lists_catalog_empty_title :
  let air := {| pg.s_id := 1; pg.s_title := "Air Max"; pg.s_price := 100;
                pg.s_imageUrl := "air.png"; pg.s_isFavorite := false;
                pg.s_favoriteId := Some 7; pg.s_isAdded := true |} in
  let db := sql.Open {| pg.favorite := []; pg.sneakers := [air];
                        pg.favorite_id_seq := 1; pg.favorite_item_fk := true |} in
  let r := {| http.Method := "GET"; http.Vars := ∅;
              http.URLQuery := {[ "title" := [""] ]};
              http.Body := json.Malformed "EOF" |} in
  let out := getItems pg.fixed_only (http.fresh ∅) r db in
  http.Status out.1 = Some 200
  ∧ http.Written out.1
    = [http.JSON
         (json.Arr
            [json.Obj [("id", json.Num 1); ("title", json.Str "Air Max");
                       ("price", json.Num 100); ("image_url", json.Str "air.png");
                       ("is_favorite", json.Bool false); ("favorite_id", json.Num 7);
                       ("is_added", json.Bool true)]])].
Proof.
  intros air db r out.
  destruct (getItems_lists_catalog pg.refusing ∅ r db)
    as (Hstatus & Hwritten & _).
  - reflexivity.
  - reflexivity.
  - split; [exact Hstatus|exact Hwritten].
Defined.

(** ** DELETE, twice *)

Lemma deleteFavorite_again (n : Z) (st : pg.Store) :
  (pg.deleteFavorite n (pg.deleteFavorite n st).1).1 = (pg.deleteFavorite n st).1.
Proof.
  unfold pg.deleteFavorite. cbn [fst pg.favorite pg.sneakers pg.favorite_id_seq
    pg.favorite_item_fk].
  rewrite (List.forallb_filter_id _ (List.filter _ (pg.favorite st)));
    [reflexivity|apply List.forallb_filter].
Qed.

(** X13. Deleting is idempotent.  On the reference store a second
    DELETE of the same identifier is answered 204 like the first and
    leaves the store exactly as the first one left it. *)
Theorem delete_twice_is_delete_once (other : sql.Driver pg.Store)
    (h1 h2 : gmap string string) (r1 r2 : http.Request)
    (db : sql.DB pg.Store) (n : Z) :
  strconv.Atoi (default "" (http.Vars r1 !! "favoriteId")) = inr n →
  strconv.Atoi (default "" (http.Vars r2 !! "favoriteId")) = inr n →
  let drv := pg.driver other in
  let first := deleteFavorite drv (http.fresh h1) r1 db in
  let second := deleteFavorite drv (http.fresh h2) r2 first.2 in
  http.Status first.1 = Some 204
  ∧ http.Status second.1 = Some 204
  ∧ sql.store second.2 = sql.store first.2
  ∧ ¬ In n (map pg.f_id (pg.favorite (sql.store first.2))).
Proof.
  intros Hparse1 Hparse2 drv first second.
  assert (Hfirst := deleteFavorite_pg other h1 r1 db n Hparse1).
  fold drv first in Hfirst.
  assert (Hsecond := deleteFavorite_pg other h2 r2 first.2 n Hparse2).
  fold drv second in Hsecond.
  split; [rewrite Hfirst; reflexivity|]. split; [rewrite Hsecond; reflexivity|].
  split.
  - rewrite Hsecond, Hfirst. cbn [snd sql.store]. apply deleteFavorite_again.
  - rewrite Hfirst. cbn [snd sql.store]. unfold pg.deleteFavorite. cbn [fst pg.favorite].
    intros Hin. apply in_map_iff in Hin as (f & Hf & Hin).
    apply filter_In in Hin as [_ Hkept].
    apply negb_true_iff, Z.eqb_neq in Hkept. contradiction.
Qed.

Lemma delete_twice_is_delete_once_run :
  let st := {| pg.favorite := [{| pg.f_id := 1; pg.f_item_id := 1 |};
                               {| pg.f_id := 2; pg.f_item_id := 1 |}];
               pg.sneakers := []; pg.favorite_id_seq := 3;
               pg.favorite_item_fk := false |} in
  let delete := {| http.Method := "DELETE"; http.Vars := {[ "favoriteId" := "1" ]};
                   http.URLQuery := ∅; http.Body := json.Malformed "EOF" |} in
  let first := deleteFavorite pg.fixed_only (http.fresh ∅) delete (sql.Open st) in
  let second := deleteFavorite pg.fixed_only (http.fresh ∅) delete first.2 in
  http.Status second.1 = Some 204
  ∧ pg.favorite (sql.store second.2) = [{| pg.f_id := 2; pg.f_item_id := 1 |}].
Proof.
  intros st delete.
  destruct (delete_twice_is_delete_once pg.refusing ∅ ∅ delete delete (sql.Open st) 1)
    as (_ & Hstatus & Hstore & _).
  - reflexivity.
  - reflexivity.
  - split; [exact Hstatus|]. cbv zeta in Hstore. unfold pg.fixed_only.
    rewrite Hstore. reflexivity.
Defined.

(** ** The identifier in the path *)

(** X14. Every [int] can be deleted by its decimal form: for a path
    segment that is the decimal text of [n], DELETE never answers 400;
    it issues the DELETE statement with [n] bound. *)
Theorem deleteFavorite_decimal_segment {S : Type} (drv : sql.Driver S)
    (h : gmap string string) (r : http.Request) (db : sql.DB S) (n : Z) :
  is_int n = true →
  http.Vars r !! "favoriteId" = Some (sql.FormatInt n) →
  let out := deleteFavorite drv (http.fresh h) r db in
  sql.issued out.2 = sql.issued db ++ [(sqlDeleteFavorite, [sql.Int n])]
  ∧ (http.Status out.1 = Some 204 ∨ http.Status out.1 = Some 500).
Proof.
  intros Hint Hseg out. subst out. unfold deleteFavorite, sql.Exec.
  rewrite Hseg. change (default "" (Some (sql.FormatInt n))) with (sql.FormatInt n).
  rewrite (Atoi_FormatInt n Hint).
  destruct (sql.ExecContext drv _ _ _) as [st [err|res]]; simpl; tauto.
Qed.

Lemma deleteFavorite_decimal_segment_negative :
  let r := {| http.Method := "DELETE"; http.Vars := {[ "favoriteId" := "-7" ]};
              http.URLQuery := ∅; http.Body := json.Malformed "EOF" |} in
  let st := {| pg.favorite := []; pg.sneakers := [];
               pg.favorite_id_seq := 1; pg.favorite_item_fk := false |} in
  let out := deleteFavorite pg.fixed_only (http.fresh ∅) r (sql.Open st) in
  sql.issued out.2 = [(sqlDeleteFavorite, [sql.Int (-7)])]
  ∧ (http.Status out.1 = Some 204 ∨ http.Status out.1 = Some 500).
Proof.
  intros r st.
  apply (deleteFavorite_decimal_segment pg.fixed_only ∅ r (sql.Open st) (-7)).
  - reflexivity.
  - reflexivity.
Defined.

(** ** The two literal routes *)

(** X15. What the service does for the paths [/favorites] and [/items]
    is decided by the method alone: OPTIONS is answered by the
    middleware, GET (and POST on [/favorites]) reaches its handler on a
    writer that already carries the Access-Control headers, with no route
    variables, and every other method is answered 405 with nothing
    written and the database untouched. *)
Theorem handler_literal_routes {S : Type} (drv : sql.Driver S)
    (location : string → string)
    (h : gmap string string) (r : http.Request) (db : sql.DB S) :
  let w := http.fresh (allowed h) in
  let r' := {| http.Method := http.Method r; http.Vars := ∅;
               http.URLQuery := http.URLQuery r; http.Body := http.Body r |} in
  let m := http.Method r in
  handler drv location "/favorites" (http.fresh h) r db
  = (if String.eqb m "OPTIONS" then (http.WriteHeader 200 w, db)
     else if String.eqb m "GET" then getFavorites drv w r' db
     else if String.eqb m "POST" then postFavorite drv w r' db
     else (http.WriteHeader 405 w, db))
  ∧ handler drv location "/items" (http.fresh h) r db
    = (if String.eqb m "OPTIONS" then (http.WriteHeader 200 w, db)
       else if String.eqb m "GET" then getItems drv w r' db
       else (http.WriteHeader 405 w, db)).
Proof.
  intros w r' m. subst w r' m. unfold handler, enableCORS.
  change (http.Set_ _ _ (http.Set_ _ _ (http.Set_ _ _ (http.fresh h))))
    with (http.fresh (allowed h)).
  split.
  - destruct (String.eqb (http.Method r) "OPTIONS"); [reflexivity|].
    unfold mux.ServeHTTP.
    change (negb (String.eqb (mux.cleanPath "/favorites") "/favorites")) with false.
    cbv iota. unfold router.
    cbn [mux.Match mux.matchPath mux.template mux.methods mux.handlerFunc existsb].
    change (String.eqb "/favorites" "/favorites") with true.
    change (String.eqb "/favorites" "/items") with false.
    change (mux.trimPrefix "/favorites/" "/favorites") with (@None string).
    cbv iota. rewrite !orb_false_r.
    destruct (String.eqb (http.Method r) "GET"); [reflexivity|].
    destruct (String.eqb (http.Method r) "POST"); reflexivity.
  - destruct (String.eqb (http.Method r) "OPTIONS"); [reflexivity|].
    unfold mux.ServeHTTP.
    change (negb (String.eqb (mux.cleanPath "/items") "/items")) with false.
    cbv iota. unfold router.
    cbn [mux.Match mux.matchPath mux.template mux.methods mux.handlerFunc existsb].
    change (String.eqb "/items" "/favorites") with false.
    change (String.eqb "/items" "/items") with true.
    change (mux.trimPrefix "/favorites/" "/items") with (@None string).
    cbv iota. rewrite !orb_false_r.
    destruct (String.eqb (http.Method r) "GET"); reflexivity.
Qed.
